(** * Cerina Protocol Foundry: the workflow state, its reducers, the
    supervisor and its router, the agent nodes and the graph executor.

    Shallow embedding of [backend/src/cerina/state.py], [graph.py],
    [api.py] (the [human_approve] resume path) and the agent nodes under
    [agents/].  Python floats (the scores) are modelled as rationals [Q];
    the code only compares them with decimal constants.  The outputs of the
    language-model calls and of [uuid4] are inputs of the nodes, given by an
    [Oracle]. *)

From Stdlib Require Import List String ZArith QArith Bool Permutation Lia.
Import ListNotations.
Open Scope string_scope.
Open Scope list_scope.

(* ------------------------------------------------------------------ *)
(** ** Data model ([state.py]) *)

(** [class Draft(BaseModel)]; [created_at] is not modelled. *)
Record Draft := mkDraft {
  d_id : string;
  d_content : string;
  d_created_by : string;
  d_parent_draft_id : option string;
  d_version_number : Z
}.

(** [class Review(BaseModel)]; [line_level_comments] is always [[]] in
    the code and is not modelled. *)
Record Review := mkReview {
  r_id : string;
  r_agent_name : string;
  r_target_draft_id : string;
  r_summary : string;
  r_safety_score : option Q;
  r_empathy_score : option Q;
  r_clinical_score : option Q;
  r_rationale : string
}.

(** The [Literal[...]] type of [FoundryState.status]. *)
Inductive Status :=
| INIT | DRAFTING | REVIEWING | REVISING | AWAITING_HUMAN
| APPROVED | FAILED | REJECTED.

Definition status_eqb (a b : Status) : bool :=
  match a, b with
  | INIT, INIT | DRAFTING, DRAFTING | REVIEWING, REVIEWING
  | REVISING, REVISING | AWAITING_HUMAN, AWAITING_HUMAN
  | APPROVED, APPROVED | FAILED, FAILED | REJECTED, REJECTED => true
  | _, _ => false
  end.

(** [class FoundryState(BaseModel)]; [scratchpads] is not modelled. *)
Record FoundryState := mkState {
  session_id : string;
  user_intent : string;
  user_context : option string;
  current_draft : option Draft;
  draft_history : list Draft;
  reviews : list Review;
  safety_score : option Q;
  empathy_score : option Q;
  clinical_score : option Q;
  iteration : Z;
  max_iterations : Z;
  status : Status;
  approve_after_revision : bool;
  error : option string
}.

(** [new_session_state] *)
Definition new_session_state (sid intent : string) (ctx : option string)
  : FoundryState :=
  mkState sid intent ctx None [] [] None None None 0 4 INIT false None.

(** [merge_reviews]: the reducer declared on [FoundryState.reviews].
    [None] stands for a Python [None] argument. *)
Definition merge_reviews (current new : option (list Review)) : list Review :=
  let current := match current with None => [] | Some l => l end in
  let new := match new with None => [] | Some l => l end in
  current ++ new.

(** A node's return value, a [Dict[str, Any]] partial update: a key absent
    from the dict is [None] here, a key present is [Some v]. *)
Record StateUpdate := mkUpdate {
  u_user_intent : option string;
  u_current_draft : option Draft;
  u_draft_history : option (list Draft);
  u_reviews : option (list Review);
  u_safety_score : option Q;
  u_empathy_score : option Q;
  u_clinical_score : option Q;
  u_iteration : option Z;
  u_status : option Status;
  u_approve_after_revision : option bool;
  u_error : option string
}.

(** The empty dict [{}]. *)
Definition empty_update : StateUpdate :=
  mkUpdate None None None None None None None None None None None.

Definition replace {A} (old : A) (new : option A) : A :=
  match new with Some v => v | None => old end.

Definition replace_opt {A} (old : option A) (new : option A) : option A :=
  match new with Some v => Some v | None => old end.

(** How a partial update is merged into the state: every key present
    replaces the field, except [reviews], which goes through its reducer
    [merge_reviews] (the [Annotated[List[Review], merge_reviews]] channel). *)
Definition apply_update (s : FoundryState) (u : StateUpdate) : FoundryState :=
  mkState (session_id s)
    (replace (user_intent s) (u_user_intent u))
    (user_context s)
    (replace_opt (current_draft s) (u_current_draft u))
    (replace (draft_history s) (u_draft_history u))
    (match u_reviews u with
     | Some l => merge_reviews (Some (reviews s)) (Some l)
     | None => reviews s
     end)
    (replace_opt (safety_score s) (u_safety_score u))
    (replace_opt (empathy_score s) (u_empathy_score u))
    (replace_opt (clinical_score s) (u_clinical_score u))
    (replace (iteration s) (u_iteration u))
    (max_iterations s)
    (replace (status s) (u_status u))
    (replace (approve_after_revision s) (u_approve_after_revision u))
    (replace_opt (error s) (u_error u)).

(** Several updates written in one step (the fan-in of parallel siblings)
    are applied one after the other, in the order given. *)
Definition apply_updates (s : FoundryState) (us : list StateUpdate)
  : FoundryState :=
  fold_left apply_update us s.

(* ------------------------------------------------------------------ *)
(** ** Supervisor and router ([graph.py]) *)

Definition SAFETY_THRESHOLD : Q := 7 # 10.
Definition EMPATHY_THRESHOLD : Q := 6 # 10.
Definition CLINICAL_THRESHOLD : Q := 6 # 10.
Definition CRITICAL_SAFETY_FLOOR : Q := 2 # 10.

(** Python [a < b] and [a >= b] on the scores. *)
Definition Qltb (a b : Q) : bool := negb (Qle_bool b a).
Definition Qgeb (a b : Q) : bool := Qle_bool b a.

Definition scores_present (s : FoundryState) : bool :=
  match safety_score s, empathy_score s, clinical_score s with
  | Some _, Some _, Some _ => true
  | _, _, _ => false
  end.

Definition scores_passing (s : FoundryState) : bool :=
  match safety_score s, empathy_score s, clinical_score s with
  | Some a, Some b, Some c =>
      Qgeb a SAFETY_THRESHOLD && Qgeb b EMPATHY_THRESHOLD
      && Qgeb c CLINICAL_THRESHOLD
  | _, _, _ => false
  end.

Definition ERR_CRITICAL : string := "Critical safety violation detected.".
Definition ERR_MAX_ITER : string :=
  "Max iterations reached without meeting quality thresholds.".

(** The test [state.safety_score is not None and state.safety_score < 0.2]. *)
Definition critical_safety (s : FoundryState) : bool :=
  match safety_score s with
  | Some a => Qltb a CRITICAL_SAFETY_FLOOR
  | None => false
  end.

(** [run_supervisor] *)
Definition run_supervisor (s : FoundryState) : StateUpdate :=
  if critical_safety s then
    mkUpdate None None None None None None None None
      (Some FAILED) (Some false) (Some ERR_CRITICAL)
  else if approve_after_revision s && status_eqb (status s) REVIEWING then
    if scores_passing s then
      mkUpdate None None None None None None None None
        (Some APPROVED) (Some false) None
    else if (max_iterations s <=? iteration s)%Z then
      mkUpdate None None None None None None None None
        (Some FAILED) (Some false) (Some ERR_MAX_ITER)
    else empty_update
  else if scores_passing s && (1 <=? iteration s)%Z then empty_update
  else if (max_iterations s <=? iteration s)%Z then
    if negb (scores_passing s) then
      mkUpdate None None None None None None None None
        (Some FAILED) None (Some ERR_MAX_ITER)
    else empty_update
  else empty_update.

(** [await_human] *)
Definition await_human (s : FoundryState) : StateUpdate :=
  mkUpdate None None None None None None None None
    (Some AWAITING_HUMAN) None None.

(** The labels returned by [route_supervisor]. *)
Inductive Route := R_await_human | R_revision | R_FAILED | R_approved | R_rejected.

(** [route_supervisor] *)
Definition route_supervisor (s : FoundryState) : Route :=
  if status_eqb (status s) FAILED then R_FAILED
  else if status_eqb (status s) APPROVED then R_approved
  else if status_eqb (status s) REVISING then R_revision
  else if status_eqb (status s) REJECTED then R_rejected
  else if approve_after_revision s && status_eqb (status s) REVIEWING then
    if scores_passing s then R_approved
    else if (iteration s <? max_iterations s)%Z then R_revision
    else R_FAILED
  else if scores_passing s && (1 <=? iteration s)%Z then R_await_human
  else if (iteration s <? max_iterations s)%Z then R_revision
  else R_FAILED.

(* ------------------------------------------------------------------ *)
(** ** Agent nodes ([agents/*.py]) *)

(** A JSON value as [json.loads] returns it, reduced to what the code
    tests: a string, [null], or any other value (number, boolean, list,
    object) with its Python truthiness. *)
Inductive JValue := JStr (v : string) | JNull | JOther (truthy : bool).

(** [x or default] *)
Definition py_or (x default : JValue) : JValue :=
  match x with
  | JStr v => if String.eqb v "" then default else x
  | JNull => default
  | JOther truthy => if truthy then x else default
  end.

(** [result.get(key, default)]; [None] is a missing key. *)
Definition json_get (x : option JValue) (default : JValue) : JValue :=
  match x with Some v => v | None => default end.

(** Pydantic's validation of a [str] field: a value that is not a string
    makes the model constructor raise a [ValidationError] ([None]). *)
Definition str_field (x : JValue) : option string :=
  match x with JStr v => Some v | _ => None end.

(** How the [try] block of a reviewer ended: [T_except] when it raised
    (the model call failed, the reply was not JSON, or a later line of the
    block raised) and the [except] branch ran; [T_ok raw summary] when it
    completed, [raw] being the score read from the reply ([None] when it is
    missing or [float()] rejects it, so that the default is used) and
    [summary] the value of [result.get("summary")] ([None] for a missing
    key). *)
Inductive ReviewTry :=
| T_except
| T_ok (raw : option Q) (summary : option JValue).

(** What the nodes receive from outside the program: the text returned by
    the language model (or the fallback text when the call fails), the
    outcome of a reviewer's [try] block, the rationale text of a review and
    the identifiers drawn from [uuid4].  Each is indexed by the calling
    agent's name and its input state. *)
Record Oracle := mkOracle {
  llm_text : string -> FoundryState -> string;
  llm_review : string -> FoundryState -> ReviewTry;
  llm_rationale : string -> FoundryState -> string;
  fresh_id : string -> FoundryState -> string
}.

(** [max(0.0, min(1.0, score))] *)
Definition clamp01 (x : Q) : Q :=
  if Qle_bool x 1 then (if Qle_bool 0 x then x else 0) else 1.

(** A reviewer's score: the clamped model score, or the node's default. *)
Definition reviewer_score (default : Q) (raw : option Q) : Q :=
  match raw with Some x => clamp01 x | None => default end.

Section Nodes.
Variable o : Oracle.

(** [run_intent_interpreter] (the scratchpad notes are not modelled). *)
Definition run_intent_interpreter (s : FoundryState) : StateUpdate :=
  mkUpdate (Some (llm_text o "IntentInterpreter" s))
    None None None None None None None (Some DRAFTING) None None.

(** [run_drafting_agent] *)
Definition run_drafting_agent (s : FoundryState) : StateUpdate :=
  let new_draft :=
    mkDraft (fresh_id o "DraftingAgent" s) (llm_text o "DraftingAgent" s)
      "DraftingAgent" (option_map d_id (current_draft s))
      (iteration s + 1)%Z in
  let new_history :=
    draft_history s ++
      (match current_draft s with Some d => [d] | None => [] end) in
  mkUpdate None (Some new_draft) (Some new_history) None None None None
    (Some (iteration s + 1)%Z) (Some REVIEWING) None None.

(** [run_revision_agent] *)
Definition run_revision_agent (s : FoundryState) : StateUpdate :=
  match current_draft s with
  | None => empty_update
  | Some cur =>
      let new_draft :=
        mkDraft (fresh_id o "RevisionAgent" s) (llm_text o "RevisionAgent" s)
          "RevisionAgent" (Some (d_id cur)) (d_version_number cur + 1)%Z in
      let new_history := draft_history s ++ [cur] in
      mkUpdate None (Some new_draft) (Some new_history) None None None None
        (Some (iteration s + 1)%Z) (Some REVIEWING) None None
  end.

(** The reviewers return [None] when the call raises: the [Review(...)]
    built after the [try] block rejects a summary that is not a string. *)

(** [run_safety_guardian] (default score 0.8) *)
Definition run_safety_guardian (s : FoundryState) : option StateUpdate :=
  match current_draft s with
  | None => Some empty_update
  | Some cur =>
      let '(score, summary) :=
        match llm_review o "SafetyGuardian" s with
        | T_ok raw v =>
            (reviewer_score (8 # 10) raw,
             py_or (json_get v (JStr "Safety Assessment"))
               (JStr "Safety Assessment"))
        | T_except => (8 # 10, JStr "Safety Assessment (fallback)")
        end in
      match str_field summary with
      | None => None
      | Some summary =>
          let review :=
            mkReview (fresh_id o "SafetyGuardian" s) "SafetyGuardian" (d_id cur)
              summary (Some score) None None
              (llm_rationale o "SafetyGuardian" s) in
          Some (mkUpdate None None None (Some [review]) (Some score) None None
                  None None None None)
      end
  end.

(** [run_empathy_tone_agent] (default score 0.85) *)
Definition run_empathy_tone_agent (s : FoundryState) : option StateUpdate :=
  match current_draft s with
  | None => Some empty_update
  | Some cur =>
      let '(score, summary) :=
        match llm_review o "EmpathyToneAgent" s with
        | T_ok raw v =>
            (reviewer_score (85 # 100) raw,
             py_or (json_get v (JStr "Tone Assessment")) (JStr "Tone Assessment"))
        | T_except => (85 # 100, JStr "Tone Assessment (fallback)")
        end in
      match str_field summary with
      | None => None
      | Some summary =>
          let review :=
            mkReview (fresh_id o "EmpathyToneAgent" s) "EmpathyToneAgent"
              (d_id cur) summary None (Some score) None
              (llm_rationale o "EmpathyToneAgent" s) in
          Some (mkUpdate None None None (Some [review]) None (Some score) None
                  None None None None)
      end
  end.

(** [run_clinical_critic] (default score 0.9); unlike the two others, the
    summary read from the reply has no [or] fallback. *)
Definition run_clinical_critic (s : FoundryState) : option StateUpdate :=
  match current_draft s with
  | None => Some empty_update
  | Some cur =>
      let '(score, summary) :=
        match llm_review o "ClinicalCritic" s with
        | T_ok raw v =>
            (reviewer_score (9 # 10) raw,
             json_get v (JStr "Clinical assessment"))
        | T_except => (9 # 10, JStr "Clinical Assessment (fallback)")
        end in
      match str_field summary with
      | None => None
      | Some summary =>
          let review :=
            mkReview (fresh_id o "ClinicalCritic" s) "ClinicalCritic" (d_id cur)
              summary None None (Some score)
              (llm_rationale o "ClinicalCritic" s) in
          Some (mkUpdate None None None (Some [review]) None None (Some score)
                  None None None None)
      end
  end.

End Nodes.

(* ------------------------------------------------------------------ *)
(** ** The graph and its executor ([build_graph], LangGraph's run loop) *)

Inductive Node :=
| N_intent_interpreter | N_drafting | N_safety | N_empathy | N_clinical
| N_revision | N_supervisor | N_await_human.

(** [builder.add_node(...)] *)
Definition run_node (o : Oracle) (n : Node) (s : FoundryState)
  : option StateUpdate :=
  match n with
  | N_intent_interpreter => Some (run_intent_interpreter o s)
  | N_drafting => Some (run_drafting_agent o s)
  | N_safety => run_safety_guardian o s
  | N_empathy => run_empathy_tone_agent o s
  | N_clinical => run_clinical_critic o s
  | N_revision => Some (run_revision_agent o s)
  | N_supervisor => Some (run_supervisor s)
  | N_await_human => Some (await_human s)
  end.

(** The fan-out edges [drafting -> safety, empathy, clinical] and
    [revision -> safety, empathy, clinical]. *)
Definition critics : list Node := [N_safety; N_empathy; N_clinical].

(** The single unconditional edges of [build_graph]; [drafting] and
    [revision] fan out, [supervisor] routes conditionally. *)
Definition next_node (n : Node) : option Node :=
  match n with
  | N_intent_interpreter => Some N_drafting
  | N_safety | N_empathy | N_clinical => Some N_supervisor
  | N_await_human => Some N_supervisor
  | N_drafting | N_revision | N_supervisor => None
  end.

(** How a run ends: at [END] with the router's label, suspended after
    [await_human] ([interrupt_after=["await_human"]]), with an exception
    raised by a node (the state is the last one committed), or out of
    fuel. *)
Inductive Outcome :=
| Ended (label : Route) (s : FoundryState)
| Suspended (s : FoundryState)
| Crashed (s : FoundryState)
| OutOfFuel (s : FoundryState).

(** The order in which LangGraph applies the writes of the nodes of one
    step: sorted by node name, [clinical], [empathy], [safety]. *)
Definition fanin_order : list Node := [N_clinical; N_empathy; N_safety].

(** The updates of several calls, or [None] as soon as one of them
    raised. *)
Fixpoint all_returned (rs : list (option StateUpdate))
  : option (list StateUpdate) :=
  match rs with
  | [] => Some []
  | None :: _ => None
  | Some u :: rs' =>
      match all_returned rs' with
      | Some us => Some (u :: us)
      | None => None
      end
  end.

(** One fan-out round: the three critics run on the same snapshot; if one
    of them raises, the step fails and nothing is written; otherwise their
    updates are merged at the fan-in. *)
Definition fanout_round (o : Oracle) (s : FoundryState) : option FoundryState :=
  match all_returned (map (fun c => run_node o c s) fanin_order) with
  | Some us => Some (apply_updates s us)
  | None => None
  end.

(** [exec fuel n s] runs node [n] on [s] and follows the graph from it;
    it returns the nodes invoked, in order, and the outcome. *)
Fixpoint exec (o : Oracle) (fuel : nat) (n : Node) (s : FoundryState)
  : list Node * Outcome :=
  match fuel with
  | O => ([], OutOfFuel s)
  | S f =>
    match run_node o n s with
    | None => ([n], Crashed s)
    | Some u =>
    let s1 := apply_update s u in
    match n with
    | N_supervisor =>
        match route_supervisor s1 with
        | R_await_human =>
            ([N_supervisor; N_await_human],
             Suspended (apply_update s1 (await_human s1)))
        | R_revision =>
            let '(t, out) := exec o f N_revision s1 in (N_supervisor :: t, out)
        | l => ([N_supervisor], Ended l s1)
        end
    | N_await_human => ([N_await_human], Suspended s1)
    | N_drafting | N_revision =>
        match fanout_round o s1 with
        | None => (n :: critics, Crashed s1)
        | Some s2 =>
            let '(t, out) := exec o f N_supervisor s2 in (n :: critics ++ t, out)
        end
    | N_intent_interpreter | N_safety | N_empathy | N_clinical =>
        match next_node n with
        | Some m => let '(t, out) := exec o f m s1 in (n :: t, out)
        | None => ([n], Ended R_FAILED s1)
        end
    end
    end
  end.

(** A fresh run from the entry point [intent_interpreter]. *)
Definition start (o : Oracle) (fuel : nat) (s : FoundryState)
  : list Node * Outcome :=
  exec o fuel N_intent_interpreter s.

(** [ainvoke(None)] after [aupdate_state(..., as_node="await_human")]:
    the run continues along the edge leaving [await_human]. *)
Definition resume (o : Oracle) (fuel : nat) (s : FoundryState)
  : list Node * Outcome :=
  match next_node N_await_human with
  | Some m => exec o fuel m s
  | None => ([], Suspended s)
  end.

(* ------------------------------------------------------------------ *)
(** ** The resume path of the API ([api.py], [human_approve]) *)

Inductive Action := APPROVE_FINAL | APPROVE_CONTINUE | REQUEST_REVISION | REJECT.

Definition action_name (a : Action) : string :=
  match a with
  | APPROVE_FINAL => "APPROVE_FINAL"
  | APPROVE_CONTINUE => "APPROVE_CONTINUE"
  | REQUEST_REVISION => "REQUEST_REVISION"
  | REJECT => "REJECT"
  end.

(** [class HumanApproveRequest] *)
Record HumanApproveRequest := mkRequest {
  new_content : string;
  action : Action;
  comments : option string
}.

(** The [updates] dict that [human_approve] builds from the stored state;
    [hid] is the [uuid4] of the human review. *)
Definition human_approve_updates (hid : string) (cur : FoundryState)
    (req : HumanApproveRequest) : StateUpdate :=
  let score :=
    match action req with REQUEST_REVISION => None | _ => Some 1%Q end in
  let human_review :=
    mkReview hid "HumanReviewer"
      (match current_draft cur with Some d => d_id d | None => "unknown" end)
      (String.append "Human Action: " (action_name (action req)))
      score score score
      (match comments req with
       | Some c => if String.eqb c "" then "No comments provided." else c
       | None => "No comments provided."
       end) in
  let serialized_reviews := reviews cur ++ [human_review] in
  let draft_upd :=
    match current_draft cur with
    | Some d =>
        if String.eqb (new_content req) (d_content d) then None
        else Some (mkDraft (d_id d) (new_content req) (d_created_by d)
                     (d_parent_draft_id d) (d_version_number d))
    | None => None
    end in
  let '(st, flag) :=
    match action req with
    | APPROVE_FINAL => (Some APPROVED, None)
    | APPROVE_CONTINUE => (Some REVISING, Some true)
    | REQUEST_REVISION => (Some REVISING, None)
    | REJECT => (Some REJECTED, None)
    end in
  mkUpdate None draft_upd None (Some serialized_reviews) None None None
    None st flag None.

(** [human_approve]: apply the updates as if from [await_human]
    (the [reviews] key goes through its reducer), then resume. *)
Definition human_approve (o : Oracle) (fuel : nat) (hid : string)
    (cur : FoundryState) (req : HumanApproveRequest) : list Node * Outcome :=
  resume o fuel (apply_update cur (human_approve_updates hid cur req)).

(** The external patch [{status: "APPROVED"}] applied at [await_human]. *)
Definition approve_patch : StateUpdate :=
  mkUpdate None None None None None None None None (Some APPROVED) None None.

(* ------------------------------------------------------------------ *)
(** ** Observations on runs *)

(** The reviews an update brings in ([None] when the key is absent). *)
Definition incoming_reviews (u : StateUpdate) : list Review :=
  match u_reviews u with Some l => l | None => [] end.

Definition outcome_state (out : Outcome) : FoundryState :=
  match out with Ended _ s | Suspended s | Crashed s | OutOfFuel s => s end.

(** The state [s] with its [error] field replaced by [e]. *)
Definition with_error (s : FoundryState) (e : option string) : FoundryState :=
  mkState (session_id s) (user_intent s) (user_context s) (current_draft s)
    (draft_history s) (reviews s) (safety_score s) (empathy_score s)
    (clinical_score s) (iteration s) (max_iterations s) (status s)
    (approve_after_revision s) e.

(** The nodes that produce a new current draft. *)
Definition is_artifact_node (n : Node) : bool :=
  match n with N_drafting | N_revision => true | _ => false end.

Definition count_artifact_nodes (t : list Node) : nat :=
  List.length (filter is_artifact_node t).

(** [len(draft_history) + (1 if current_draft else 0)] *)
Definition artifact_count (s : FoundryState) : nat :=
  List.length (draft_history s)
  + match current_draft s with Some _ => 1 | None => 0 end.

(** An update that touches neither [current_draft] nor [draft_history]. *)
Definition keeps_drafts (u : StateUpdate) : Prop :=
  u_current_draft u = None /\ u_draft_history u = None.

(** An update that writes none of the fields the reviewers leave alone:
    drafts, counter, status, flag and error. *)
Definition keeps_control (u : StateUpdate) : Prop :=
  keeps_drafts u /\ u_iteration u = None /\ u_status u = None /\
  u_approve_after_revision u = None /\ u_error u = None.

(** Those fields, and [max_iterations], of a state. *)
Definition control (s : FoundryState)
  : option Draft * list Draft * Z * Z * Status * bool * option string :=
  (current_draft s, draft_history s, iteration s, max_iterations s, status s,
   approve_after_revision s, error s).

(** A concrete model: every call returns its agent's name as text, the
    three reviewers return the given scores, and identifiers are the agent
    name followed by the iteration. *)
Definition iter_tag (s : FoundryState) : string :=
  match iteration s with
  | 0%Z => "0" | 1%Z => "1" | 2%Z => "2" | 3%Z => "3" | _ => "n"
  end.

Definition demo_oracle (sa se sc : option Q) : Oracle :=
  mkOracle (fun n _ => n)
    (fun n _ =>
       T_ok (if String.eqb n "SafetyGuardian" then sa
             else if String.eqb n "EmpathyToneAgent" then se else sc)
         (Some (JStr "summary")))
    (fun _ _ => "rationale")
    (fun n s => String.append n (iter_tag s)).

Definition demo_session : FoundryState :=
  new_session_state "session-1" "fear of dogs" None.

Definition demo_request (a : Action) : HumanApproveRequest :=
  mkRequest "edited protocol" a None.

(** The state of Scenario A: scores 0.9, 0.85, 0.92 after the first round. *)
Definition scenario_a_state : FoundryState :=
  mkState "session-1" "fear of dogs" None None [] []
    (Some (9 # 10)) (Some (85 # 100)) (Some (92 # 100)) 1 4 REVIEWING false
    None.

(** The nodes of a trace that are revision steps. *)
Definition is_revision_node (n : Node) : bool :=
  match n with N_revision => true | _ => false end.

Definition count_revisions (t : list Node) : nat :=
  List.length (filter is_revision_node t).

(* ------------------------------------------------------------------ *)
(** ** Fence stripping in [generate_json] ([agents/llm.py])

    A Python [str] is a sequence of Unicode code points, a [list N] here.
    [is_py_space] is Python's [str.isspace], which is also the set of
    characters [str.strip()] removes: the code points of category Zs or of
    bidirectional class WS, B or S. *)

Definition py_whitespace : list N :=
  [9; 10; 11; 12; 13; 28; 29; 30; 31; 32; 133; 160; 5760;
   8192; 8193; 8194; 8195; 8196; 8197; 8198; 8199; 8200; 8201; 8202;
   8232; 8233; 8239; 8287; 12288]%N.

Definition is_py_space (c : N) : bool := existsb (N.eqb c) py_whitespace.

Fixpoint py_lstrip (l : list N) : list N :=
  match l with
  | [] => []
  | c :: r => if is_py_space c then py_lstrip r else l
  end.

(** [str.strip()] *)
Definition py_strip (l : list N) : list N :=
  rev (py_lstrip (rev (py_lstrip l))).

(** [str.startswith(p)] *)
Fixpoint starts_with (p l : list N) : bool :=
  match p, l with
  | [], _ => true
  | x :: p', y :: l' => N.eqb x y && starts_with p' l'
  | _ :: _, [] => false
  end.

(** [str.endswith(p)] *)
Definition ends_with (p l : list N) : bool :=
  starts_with (rev p) (rev l).

(** The backtick, and the fences ["```json"] and ["```"]. *)
Definition BACKTICK : N := 96%N.
Definition FENCE_JSON : list N := [96; 96; 96; 106; 115; 111; 110]%N.
Definition FENCE : list N := [96; 96; 96]%N.

(** [generate_json] from the model's reply [content] (already [or ""]):
    the reply is stripped (line 107); when [json.loads] rejects it, the
    [except json.JSONDecodeError] branch removes the fences and strips
    again.  The result is the text handed to the second [json.loads]. *)
Definition extract_json_text (content : list N) : list N :=
  let text := py_strip content in
  let text := if starts_with FENCE_JSON text then skipn 7 text else text in
  let text := if starts_with FENCE text then skipn 3 text else text in
  let text :=
    if ends_with FENCE text then firstn (List.length text - 3)%nat text
    else text in
  py_strip text.

(** The assertions of [test_graph_basic_flow] ([tests/test_graph_basic.py])
    on the state a fresh run stops in. *)
Definition basic_flow_assertions (s : FoundryState) : bool :=
  (status_eqb (status s) AWAITING_HUMAN || status_eqb (status s) FAILED) &&
  (if status_eqb (status s) AWAITING_HUMAN then
     match current_draft s with Some _ => true | None => false end &&
     Nat.leb 0 (List.length (draft_history s)) &&
     Nat.leb 3 (List.length (reviews s)) &&
     scores_present s
   else true).

(* ================================================================== *)
(** * Properties *)

(** ** Helper lemmas *)

Lemma Qltb_true (a b : Q) : a < b -> Qltb a b = true.
Proof.
  intros H. unfold Qltb.
  destruct (Qle_bool b a) eqn:E; [|reflexivity].
  apply Qle_bool_iff in E. exfalso. exact (Qlt_not_le a b H E).
Qed.

Lemma Qgeb_iff (a b : Q) : Qgeb a b = true <-> b <= a.
Proof. unfold Qgeb. apply Qle_bool_iff. Qed.

(** Passing scores are never below the critical floor. *)
Lemma passing_not_critical (s : FoundryState) :
  scores_passing s = true -> critical_safety s = false.
Proof.
  unfold scores_passing, critical_safety, Qltb.
  destruct (safety_score s) as [a|]; [|reflexivity].
  destruct (empathy_score s), (clinical_score s); try discriminate.
  intros H. apply andb_true_iff in H as [H _].
  apply andb_true_iff in H as [H _].
  apply Qgeb_iff in H.
  assert (Hle : CRITICAL_SAFETY_FLOOR <= a).
  { eapply Qle_trans; [|exact H]. unfold Qle; simpl; lia. }
  apply Qle_bool_iff in Hle. rewrite Hle. reflexivity.
Qed.

Lemma start_exec (o : Oracle) (fuel : nat) (s : FoundryState) :
  start o fuel s = exec o fuel N_intent_interpreter s.
Proof. reflexivity. Qed.

Lemma apply_update_empty (s : FoundryState) : apply_update s empty_update = s.
Proof. destruct s; reflexivity. Qed.

Lemma status_eqb_eq (a b : Status) : status_eqb a b = true <-> a = b.
Proof. destruct a, b; simpl; split; congruence. Qed.

Ltac split_ifs H :=
  repeat match type of H with
         | context [if ?b then _ else _] => destruct b
         end.

(** The router suspends only on passing scores after at least one round. *)
Lemma route_await_inv (s : FoundryState) :
  route_supervisor s = R_await_human ->
  scores_passing s = true /\ (1 <=? iteration s)%Z = true.
Proof.
  unfold route_supervisor. intros H.
  destruct (scores_passing s) eqn:Ep, (1 <=? iteration s)%Z eqn:Ei;
    simpl in H; split_ifs H; try discriminate; auto.
Qed.

(** The reviewers write only [reviews] and their score. *)
Lemma critic_keeps_control (o : Oracle) (c : Node) (s : FoundryState)
    (u : StateUpdate) :
  In c fanin_order -> run_node o c s = Some u -> keeps_control u.
Proof.
  intros Hc Hu. simpl in Hc.
  destruct Hc as [<-|[<-|[<-|[]]]]; simpl in Hu;
    unfold run_clinical_critic, run_empathy_tone_agent, run_safety_guardian in Hu;
    repeat match type of Hu with
           | context [match ?x with _ => _ end] => destruct x
           end;
    try discriminate; injection Hu as <-; repeat split.
Qed.

(** ** C1 *)

(** C1: when the safety score is set and below the floor 0.2, the
    supervisor's update sets status FAILED, a non-null error (and clears
    the approve-after-revision flag), whatever the other fields are; the
    router then returns the failure terminal. *)
Theorem critical_safety_routes_to_failure (s : FoundryState) (a : Q)
    (Hs : safety_score s = Some a) (Hlt : a < CRITICAL_SAFETY_FLOOR) :
  run_supervisor s =
    mkUpdate None None None None None None None None
      (Some FAILED) (Some false) (Some ERR_CRITICAL) /\
  u_error (run_supervisor s) <> None /\
  route_supervisor (apply_update s (run_supervisor s)) = R_FAILED.
Proof.
  assert (Hc : critical_safety s = true).
  { unfold critical_safety. rewrite Hs. apply Qltb_true. exact Hlt. }
  unfold run_supervisor. rewrite Hc.
  split; [reflexivity|]. split; [discriminate|].
  reflexivity.
Qed.

Lemma critical_safety_routes_to_failure_witness :
  let s := mkState "s" "i" None None [] [] (Some (1 # 10)) (Some (9 # 10))
             (Some (9 # 10)) 1 4 REVIEWING true None in
  (1 # 10) < CRITICAL_SAFETY_FLOOR /\
  route_supervisor (apply_update s (run_supervisor s)) = R_FAILED.
Proof.
  intros s. split.
  - unfold Qlt; simpl; lia.
  - apply (critical_safety_routes_to_failure s (1 # 10)).
    + reflexivity.
    + unfold Qlt; simpl; lia.
Defined.

(** ** C5 *)

(** C5: with the approve-after-revision flag set and status REVIEWING
    (the status a revision leaves), the router returns the success terminal
    when all three scores are present and pass (0.7, 0.6, 0.6), otherwise
    the failure terminal once [iteration >= max_iterations], otherwise the
    revision node. *)
Theorem auto_finalize_routing (s : FoundryState)
    (Hflag : approve_after_revision s = true) (Hst : status s = REVIEWING) :
  route_supervisor s =
    if scores_passing s then R_approved
    else if (max_iterations s <=? iteration s)%Z then R_FAILED
    else R_revision.
Proof.
  unfold route_supervisor. rewrite Hst, Hflag. simpl.
  destruct (scores_passing s); [reflexivity|].
  destruct (Z.ltb_spec (iteration s) (max_iterations s)),
           (Z.leb_spec (max_iterations s) (iteration s));
    first [reflexivity | lia].
Qed.

Lemma auto_finalize_routing_witness :
  let s := mkState "s" "i" None None [] [] (Some (9 # 10)) (Some (5 # 10))
             (Some (9 # 10)) 2 4 REVIEWING true None in
  route_supervisor s = R_revision.
Proof.
  intros s.
  rewrite (auto_finalize_routing s eq_refl eq_refl). vm_compute. reflexivity.
Defined.

(** ** C7 *)

(** C7 (Scenario A): in normal mode (flag clear, status none of FAILED,
    APPROVED, REVISING, REJECTED), scores 0.9, 0.85, 0.92 and iteration 1,
    the router returns the suspension node [await_human]. *)
Theorem scenario_a_routes_to_await_human (s : FoundryState)
    (Hflag : approve_after_revision s = false)
    (Hst : status s <> FAILED /\ status s <> APPROVED /\
           status s <> REVISING /\ status s <> REJECTED)
    (Hsa : safety_score s = Some (9 # 10))
    (Hse : empathy_score s = Some (85 # 100))
    (Hsc : clinical_score s = Some (92 # 100))
    (Hit : iteration s = 1%Z) :
  route_supervisor s = R_await_human.
Proof.
  destruct Hst as (H1 & H2 & H3 & H4).
  unfold route_supervisor.
  destruct (status_eqb (status s) FAILED) eqn:E1;
    [apply status_eqb_eq in E1; contradiction|].
  destruct (status_eqb (status s) APPROVED) eqn:E2;
    [apply status_eqb_eq in E2; contradiction|].
  destruct (status_eqb (status s) REVISING) eqn:E3;
    [apply status_eqb_eq in E3; contradiction|].
  destruct (status_eqb (status s) REJECTED) eqn:E4;
    [apply status_eqb_eq in E4; contradiction|].
  rewrite Hflag. simpl.
  unfold scores_passing. rewrite Hsa, Hse, Hsc, Hit. reflexivity.
Qed.

Lemma scenario_a_routes_to_await_human_witness :
  route_supervisor scenario_a_state = R_await_human.
Proof.
  apply scenario_a_routes_to_await_human; try reflexivity.
  repeat split; discriminate.
Defined.

(** ** C10 *)

(** C10: with no current draft, the three reviewers and the revision node
    return [{}] without raising, and merging [{}] leaves every field of the
    state as it was. *)
Theorem no_draft_nodes_are_noops (o : Oracle) (s : FoundryState)
    (Hnone : current_draft s = None) :
  run_safety_guardian o s = Some empty_update /\
  run_empathy_tone_agent o s = Some empty_update /\
  run_clinical_critic o s = Some empty_update /\
  run_revision_agent o s = empty_update /\
  (forall n, In n [N_safety; N_empathy; N_clinical; N_revision] ->
     exists u, run_node o n s = Some u /\ apply_update s u = s).
Proof.
  unfold run_safety_guardian, run_empathy_tone_agent, run_clinical_critic,
    run_revision_agent.
  rewrite Hnone.
  split; [reflexivity|]. split; [reflexivity|].
  split; [reflexivity|]. split; [reflexivity|].
  intros n Hn. exists empty_update. split; [|apply apply_update_empty].
  simpl in Hn.
  destruct Hn as [<-|[<-|[<-|[<-|[]]]]]; simpl;
    unfold run_safety_guardian, run_empathy_tone_agent, run_clinical_critic,
      run_revision_agent; rewrite Hnone; reflexivity.
Qed.

Lemma no_draft_nodes_are_noops_witness :
  exists u, run_node (demo_oracle None None None) N_revision demo_session = Some u
            /\ apply_update demo_session u = demo_session.
Proof.
  apply (no_draft_nodes_are_noops (demo_oracle None None None) demo_session
           eq_refl).
  simpl. tauto.
Defined.

(** ** C4 *)

(** C4, counterexample: the router does not read [error].  A state whose
    error field holds the exhaustion message but whose status is REVIEWING,
    with passing scores at iteration 1, is routed to [await_human]. *)
Lemma error_set_not_routed_to_failure :
  let s := mkState "s" "i" None None [] [] (Some (9 # 10)) (Some (85 # 100))
             (Some (92 # 100)) 1 4 REVIEWING false (Some ERR_MAX_ITER) in
  error s <> None /\ route_supervisor s = R_await_human.
Proof. split; [discriminate | vm_compute; reflexivity]. Qed.

(** C4, amended: the router does not read [error]: two states that differ
    only in their error field are routed alike.  It returns the failure
    terminal for every state whose status is FAILED, whatever the scores,
    the iteration counter and the flag; and every supervisor update that
    sets the error field also sets status FAILED, so the router on the
    resulting state returns the failure terminal. *)
Theorem failed_status_routes_to_failure (s : FoundryState)
    (Hst : status s = FAILED) :
  route_supervisor s = R_FAILED /\
  (forall s0 e, route_supervisor (with_error s0 e) = route_supervisor s0) /\
  (forall s', u_error (run_supervisor s') <> None ->
     u_status (run_supervisor s') = Some FAILED /\
     route_supervisor (apply_update s' (run_supervisor s')) = R_FAILED).
Proof.
  split; [|split].
  - unfold route_supervisor. rewrite Hst. reflexivity.
  - intros s0 e. reflexivity.
  - intros s' He.
    unfold run_supervisor in *.
    destruct (critical_safety s'); [split; reflexivity|].
    destruct (approve_after_revision s' && status_eqb (status s') REVIEWING).
    + destruct (scores_passing s'); [simpl in He; congruence|].
      destruct (max_iterations s' <=? iteration s')%Z;
        [split; reflexivity | simpl in He; congruence].
    + destruct (scores_passing s' && (1 <=? iteration s'))%Z;
        [simpl in He; congruence|].
      destruct (max_iterations s' <=? iteration s')%Z;
        [|simpl in He; congruence].
      destruct (negb (scores_passing s'));
        [split; reflexivity | simpl in He; congruence].
Qed.

Lemma failed_status_routes_to_failure_witness :
  let s := mkState "s" "i" None None [] [] (Some (9 # 10)) (Some (85 # 100))
             (Some (92 # 100)) 1 4 FAILED false (Some ERR_MAX_ITER) in
  route_supervisor s = R_FAILED.
Proof. intros s. apply (failed_status_routes_to_failure s eq_refl). Defined.

(** ** C8 *)

(** C8, counterexample: at [iteration = max_iterations] with failing
    scores, a safety score below 0.2 makes the supervisor store the
    critical-safety message, not the iteration-exhaustion one. *)
Lemma exhaustion_with_critical_safety :
  let s := mkState "s" "i" None None [] [] (Some (1 # 10)) (Some (9 # 10))
             (Some (9 # 10)) 4 4 REVIEWING false None in
  (max_iterations s <=? iteration s)%Z = true /\ scores_passing s = false /\
  u_error (run_supervisor s) = Some ERR_CRITICAL /\
  ERR_CRITICAL <> ERR_MAX_ITER.
Proof.
  repeat split; try (vm_compute; reflexivity). discriminate.
Qed.

(** C8, amended: when [iteration >= max_iterations] and the scores do not
    all pass, the supervisor sets status FAILED with the
    iteration-exhaustion message, unless the safety score is below the
    critical floor 0.2, in which case the message is the critical-safety
    one; either way the router returns the failure terminal. *)
Theorem exhaustion_routes_to_failure (s : FoundryState)
    (Hmax : (max_iterations s <= iteration s)%Z)
    (Hnp : scores_passing s = false) :
  u_status (run_supervisor s) = Some FAILED /\
  u_error (run_supervisor s) =
    Some (if critical_safety s then ERR_CRITICAL else ERR_MAX_ITER) /\
  route_supervisor (apply_update s (run_supervisor s)) = R_FAILED.
Proof.
  apply Z.leb_le in Hmax.
  unfold run_supervisor.
  destruct (critical_safety s); [repeat split|].
  rewrite Hnp, Hmax. simpl.
  destruct (approve_after_revision s && status_eqb (status s) REVIEWING);
    repeat split.
Qed.

Lemma exhaustion_routes_to_failure_witness :
  let s := mkState "s" "i" None None [] [] (Some (5 # 10)) (Some (9 # 10))
             (Some (9 # 10)) 4 4 REVIEWING false None in
  u_error (run_supervisor s) = Some ERR_MAX_ITER.
Proof.
  intros s.
  destruct (exhaustion_routes_to_failure s ltac:(vm_compute; discriminate)
              eq_refl) as (_ & He & _).
  rewrite He. reflexivity.
Defined.

(** ** C2 *)

Lemma reviews_apply_update (s : FoundryState) (u : StateUpdate) :
  reviews (apply_update s u) = reviews s ++ incoming_reviews u.
Proof.
  unfold apply_update, incoming_reviews, merge_reviews. simpl.
  destruct (u_reviews u); [reflexivity | symmetry; apply app_nil_r].
Qed.

Lemma reviews_apply_updates (s : FoundryState) (us : list StateUpdate) :
  reviews (apply_updates s us) = reviews s ++ flat_map incoming_reviews us.
Proof.
  revert s. induction us as [|u us IH]; intros s; simpl.
  - symmetry; apply app_nil_r.
  - unfold apply_updates in *. simpl. rewrite IH, reviews_apply_update.
    symmetry; apply app_assoc.
Qed.

(** C2: the reviews merged at a fan-in are the same multiset of reviews
    whatever the order in which the siblings' updates are applied (the
    spec's annotation set is unordered; as lists they differ only by a
    permutation), and an absent or empty incoming list leaves the current
    list unchanged. *)
Theorem fanin_reviews_order_independent (s : FoundryState)
    (us us' : list StateUpdate) (Hperm : Permutation us us') :
  Permutation (reviews (apply_updates s us)) (reviews (apply_updates s us')) /\
  merge_reviews (Some (reviews s)) None = reviews s /\
  merge_reviews (Some (reviews s)) (Some []) = reviews s /\
  (forall u, incoming_reviews u = [] -> reviews (apply_update s u) = reviews s).
Proof.
  split; [|split; [|split]].
  - rewrite !reviews_apply_updates.
    apply Permutation_app_head. apply Permutation_flat_map. exact Hperm.
  - apply app_nil_r.
  - apply app_nil_r.
  - intros u Hu. rewrite reviews_apply_update, Hu. apply app_nil_r.
Qed.

Lemma fanin_reviews_order_independent_witness :
  let o := demo_oracle None None None in
  let s := apply_update demo_session (run_drafting_agent o demo_session) in
  let updates (ns : list Node) :=
    flat_map (fun c => match run_node o c s with Some u => [u] | None => [] end)
      ns in
  Permutation (reviews (apply_updates s (updates fanin_order)))
              (reviews (apply_updates s (updates critics))).
Proof.
  intros o s updates.
  apply fanin_reviews_order_independent.
  apply Permutation_flat_map.
  exact (Permutation_sym (Permutation_rev critics)).
Defined.

(** ** C6 *)

(** A run suspends only after the router chose [await_human]. *)
Lemma exec_suspended_inv (o : Oracle) (fuel : nat) :
  forall n s t s',
  n <> N_await_human -> exec o fuel n s = (t, Suspended s') ->
  exists s1, route_supervisor s1 = R_await_human /\
             s' = apply_update s1 (await_human s1).
Proof.
  induction fuel as [|f IH]; intros n s t s' Hn Hrun; cbn [exec] in Hrun.
  - discriminate.
  - destruct (run_node o n s) as [u|]; [|discriminate].
    destruct n; try (exfalso; apply Hn; reflexivity).
    all: cbn [next_node] in Hrun.
    all: try (destruct (fanout_round o _) as [s2|]; [|discriminate]).
    all: try (destruct (exec o f _ _) as [t1 out1] eqn:E;
              inversion Hrun; subst;
              eapply IH; [|exact E]; discriminate).
    destruct (route_supervisor _) eqn:Er; try discriminate.
    + inversion Hrun; subst. eexists; split; [exact Er | reflexivity].
    + destruct (exec o f N_revision _) as [t1 out1] eqn:E.
      inversion Hrun; subst. eapply IH; [|exact E]. discriminate.
Qed.

(** Resuming a suspended state whose status was patched to APPROVED, with
    scores, iteration counter and flag untouched, runs only the supervisor
    and ends at the success terminal. *)
Lemma resume_patched_approved (o : Oracle) (fuel : nat) (s1 p : FoundryState)
    (Hr : route_supervisor s1 = R_await_human)
    (Hst : status p = APPROVED)
    (Hsc : scores_passing p = scores_passing s1)
    (Hit : iteration p = iteration s1) :
  resume o (S fuel) p = ([N_supervisor], Ended R_approved p).
Proof.
  destruct (route_await_inv s1 Hr) as [Hp Hi].
  rewrite <- Hsc in Hp. rewrite <- Hit in Hi.
  assert (Hsup : run_supervisor p = empty_update).
  { unfold run_supervisor.
    rewrite (passing_not_critical p Hp), Hst, Hp, Hi. simpl.
    destruct (approve_after_revision p); reflexivity. }
  unfold resume. cbn [next_node exec run_node]. rewrite Hsup, apply_update_empty.
  unfold route_supervisor at 1. rewrite Hst. reflexivity.
Qed.

(** C6 (Scenario D): for every instance suspended at [await_human] (by a
    run that did not start at [await_human] itself), resuming after the
    patch [{status: "APPROVED"}], or after [human_approve] with action
    APPROVE_FINAL, invokes the supervisor only (the node on the edge
    leaving [await_human]) and ends at the success terminal: no reviewer,
    drafting or revision node is run again. *)
Theorem resume_after_approval_ends_approved (o : Oracle) (fuel fuel' : nat)
    (n : Node) (s s' : FoundryState) (t : list Node)
    (Hn : n <> N_await_human) (Hrun : exec o fuel n s = (t, Suspended s'))
    (hid : string) (req : HumanApproveRequest)
    (Hact : action req = APPROVE_FINAL) :
  (exists sf, resume o (S fuel') (apply_update s' approve_patch)
                = ([N_supervisor], Ended R_approved sf)
              /\ status sf = APPROVED) /\
  (exists sf, human_approve o (S fuel') hid s' req
                = ([N_supervisor], Ended R_approved sf)
              /\ status sf = APPROVED).
Proof.
  destruct (exec_suspended_inv o fuel n s t s' Hn Hrun) as (s1 & Hr & ->).
  split.
  - eexists; split.
    + apply (resume_patched_approved o fuel' s1); try reflexivity.
      exact Hr.
    + reflexivity.
  - unfold human_approve. eexists; split.
    + apply (resume_patched_approved o fuel' s1); [exact Hr | | |].
      all: unfold human_approve_updates; rewrite Hact;
        destruct (current_draft _); [destruct (String.eqb _ _)|];
        reflexivity.
    + unfold human_approve_updates. rewrite Hact.
      destruct (current_draft _); [destruct (String.eqb _ _)|]; reflexivity.
Qed.

Lemma resume_after_approval_ends_approved_witness :
  let o := demo_oracle None None None in
  match start o 20 demo_session with
  | (_, Suspended s') =>
      exists sf, human_approve o 1 "human-1" s' (demo_request APPROVE_FINAL)
                   = ([N_supervisor], Ended R_approved sf)
                 /\ status sf = APPROVED
  | _ => False
  end.
Proof.
  intros o.
  destruct (start o 20 demo_session) as [t out] eqn:E.
  destruct out as [l sf|s'|sf|sf]; try (vm_compute in E; discriminate).
  rewrite start_exec in E.
  refine (proj2 (resume_after_approval_ends_approved o 20 0
                   N_intent_interpreter demo_session s' t _ E "human-1"
                   (demo_request APPROVE_FINAL) eq_refl)).
  discriminate.
Defined.

(** ** C3 *)

Lemma apply_keeps_drafts (s : FoundryState) (u : StateUpdate) :
  keeps_drafts u ->
  current_draft (apply_update s u) = current_draft s /\
  draft_history (apply_update s u) = draft_history s.
Proof. intros [H1 H2]. unfold apply_update. simpl. rewrite H1, H2. auto. Qed.

Lemma node_keeps_drafts (o : Oracle) (n : Node) (s : FoundryState)
    (u : StateUpdate) :
  is_artifact_node n = false -> run_node o n s = Some u -> keeps_drafts u.
Proof.
  intros H Hu.
  destruct n; try discriminate.
  - injection Hu as <-. split; reflexivity.
  - apply (critic_keeps_control o N_safety s u); [simpl; tauto | exact Hu].
  - apply (critic_keeps_control o N_empathy s u); [simpl; tauto | exact Hu].
  - apply (critic_keeps_control o N_clinical s u); [simpl; tauto | exact Hu].
  - injection Hu as <-. unfold run_supervisor.
    split; repeat match goal with
                  | |- context [if ?b then _ else _] => destruct b
                  end; reflexivity.
  - injection Hu as <-. split; reflexivity.
Qed.

Lemma apply_keeps_control (s : FoundryState) (u : StateUpdate) :
  keeps_control u -> control (apply_update s u) = control s.
Proof.
  intros ([H1 H2] & H3 & H4 & H5 & H6).
  unfold control, apply_update. simpl. rewrite H1, H2, H3, H4, H5, H6.
  reflexivity.
Qed.

Lemma apply_updates_keeps_control (us : list StateUpdate) :
  forall s, Forall keeps_control us -> control (apply_updates s us) = control s.
Proof.
  induction us as [|u us IH]; intros s Hall; [reflexivity|].
  inversion Hall as [|? ? Hu Hus]; subst.
  unfold apply_updates. simpl.
  change (fold_left apply_update us (apply_update s u))
    with (apply_updates (apply_update s u) us).
  rewrite (IH _ Hus). exact (apply_keeps_control s u Hu).
Qed.

Lemma all_returned_in (rs : list (option StateUpdate)) :
  forall us, all_returned rs = Some us -> forall u, In u us -> In (Some u) rs.
Proof.
  induction rs as [|r rs IH]; intros us H u Hin; simpl in H.
  - injection H as <-. destruct Hin.
  - destruct r as [v|]; [|discriminate].
    destruct (all_returned rs) as [us'|] eqn:E; [|discriminate].
    injection H as <-.
    destruct Hin as [<-|Hin]; [left; reflexivity|].
    right. exact (IH us' eq_refl u Hin).
Qed.

(** A round that does not raise applies the reviewers' updates. *)
Lemma fanout_updates (o : Oracle) (s s2 : FoundryState) :
  fanout_round o s = Some s2 ->
  exists us, s2 = apply_updates s us /\ Forall keeps_control us.
Proof.
  unfold fanout_round.
  destruct (all_returned _) as [us|] eqn:E; [|discriminate].
  intros H. injection H as <-. exists us. split; [reflexivity|].
  apply Forall_forall. intros u Hin.
  apply (all_returned_in _ _ E) in Hin.
  apply in_map_iff in Hin as (c & Hc & Hcin).
  exact (critic_keeps_control o c s u Hcin Hc).
Qed.

Lemma fanout_keeps_control (o : Oracle) (s s2 : FoundryState) :
  fanout_round o s = Some s2 -> control s2 = control s.
Proof.
  intros H. destruct (fanout_updates o s s2 H) as (us & -> & Hall).
  exact (apply_updates_keeps_control us s Hall).
Qed.

Lemma fanout_keeps_drafts (o : Oracle) (s s2 : FoundryState) :
  fanout_round o s = Some s2 ->
  current_draft s2 = current_draft s /\ draft_history s2 = draft_history s.
Proof.
  intros H. pose proof (fanout_keeps_control o s s2 H) as Hc.
  unfold control in Hc. injection Hc. auto.
Qed.

(** A drafting or revision step (revision with a current draft) appends
    the previous current draft, if any, to the history. *)
Lemma artifact_step (o : Oracle) (n : Node) (s : FoundryState) (u : StateUpdate) :
  is_artifact_node n = true ->
  current_draft s <> None \/ n = N_drafting ->
  run_node o n s = Some u ->
  let s1 := apply_update s u in
  current_draft s1 <> None /\
  draft_history s1 =
    draft_history s ++ match current_draft s with Some d => [d] | None => [] end /\
  artifact_count s1 = S (artifact_count s).
Proof.
  intros Hn Hc Hu s1. subst s1.
  unfold artifact_count.
  destruct n; try discriminate; injection Hu as <-.
  - unfold run_drafting_agent. simpl.
    destruct (current_draft s); simpl;
      rewrite ?length_app; simpl; repeat split; try discriminate; lia.
  - unfold run_revision_agent.
    destruct (current_draft s) eqn:E;
      [|destruct Hc as [Hc|Hc]; [contradiction|discriminate]].
    simpl. rewrite length_app. simpl. repeat split; try discriminate; lia.
Qed.

Lemma node_history_prefix (o : Oracle) (n : Node) (s : FoundryState)
    (u : StateUpdate) :
  run_node o n s = Some u ->
  exists suf, draft_history (apply_update s u) = draft_history s ++ suf.
Proof.
  intros Hu. destruct (is_artifact_node n) eqn:Ea.
  - destruct n; try discriminate; injection Hu as <-.
    + unfold run_drafting_agent. simpl. eexists; reflexivity.
    + unfold run_revision_agent. destruct (current_draft s).
      * simpl. eexists; reflexivity.
      * exists []. rewrite app_nil_r. reflexivity.
  - exists []. rewrite app_nil_r.
    apply (apply_keeps_drafts s u (node_keeps_drafts o n s u Ea Hu)).
Qed.

(** The history only grows at its end, along any run. *)
Lemma exec_history_prefix (o : Oracle) (fuel : nat) :
  forall n s t out, exec o fuel n s = (t, out) ->
  exists suf, draft_history (outcome_state out) = draft_history s ++ suf.
Proof.
  induction fuel as [|f IH]; intros n s t out Hrun; cbn [exec] in Hrun.
  - inversion Hrun; subst.
    exists []. simpl. symmetry; apply app_nil_r.
  - destruct (run_node o n s) as [u|] eqn:Hu.
    2: { inversion Hrun; subst. exists []. simpl. symmetry; apply app_nil_r. }
    destruct (node_history_prefix o n s u Hu) as [suf1 Hs1].
    destruct n; cbn [next_node] in Hrun.
    all: try (destruct (fanout_round o _) as [s2|] eqn:Hf;
              [|inversion Hrun; subst; exists suf1; exact Hs1]).
    all: try (match type of Hrun with
              | context [exec ?oo ?ff ?m ?x] =>
                  destruct (exec oo ff m x) as [t1 out1] eqn:E
              end;
              inversion Hrun; subst;
              destruct (IH _ _ _ _ E) as [suf2 H2];
              try match goal with
                  | Hf : fanout_round _ _ = Some _ |- _ =>
                      rewrite (proj2 (fanout_keeps_drafts _ _ _ Hf)) in H2
                  end;
              rewrite H2, Hs1, <- app_assoc; eexists; reflexivity).
    + destruct (route_supervisor _) eqn:Er.
      * inversion Hrun; subst. exists suf1. exact Hs1.
      * destruct (exec o f N_revision _) as [t1 out1] eqn:E.
        inversion Hrun; subst.
        destruct (IH _ _ _ _ E) as [suf2 H2].
        rewrite H2, Hs1, <- app_assoc. eexists; reflexivity.
      * inversion Hrun; subst. exists suf1. exact Hs1.
      * inversion Hrun; subst. exists suf1. exact Hs1.
      * inversion Hrun; subst. exists suf1. exact Hs1.
    + inversion Hrun; subst. exists suf1. exact Hs1.
Qed.

Lemma count_artifact_nodes_cons (n : Node) (t : list Node) :
  count_artifact_nodes (n :: t) =
    ((if is_artifact_node n then 1 else 0) + count_artifact_nodes t)%nat.
Proof. unfold count_artifact_nodes. simpl. destruct (is_artifact_node n); reflexivity. Qed.

Lemma artifact_count_keep (s : FoundryState) (u : StateUpdate) :
  keeps_drafts u -> artifact_count (apply_update s u) = artifact_count s.
Proof.
  intros Hu. destruct (apply_keeps_drafts s u Hu) as [H1 H2].
  unfold artifact_count. rewrite H1, H2. reflexivity.
Qed.

Lemma fanout_artifact_count (o : Oracle) (s s2 : FoundryState) :
  fanout_round o s = Some s2 ->
  artifact_count s2 = artifact_count s /\ current_draft s2 = current_draft s.
Proof.
  intros H. destruct (fanout_keeps_drafts o s s2 H) as [H1 H2].
  unfold artifact_count. rewrite H1, H2. auto.
Qed.

Lemma exec_artifact_count (o : Oracle) (fuel : nat) :
  forall n s t out, exec o fuel n s = (t, out) ->
  current_draft s <> None \/ n = N_intent_interpreter \/ n = N_drafting ->
  artifact_count (outcome_state out) = (artifact_count s + count_artifact_nodes t)%nat.
Proof.
  induction fuel as [|f IH]; intros n s t out Hrun Hc; cbn [exec] in Hrun.
  - inversion Hrun; subst. unfold count_artifact_nodes. simpl. lia.
  - destruct (run_node o n s) as [u|] eqn:Hu.
    2: { inversion Hrun; subst. cbn [outcome_state].
         rewrite count_artifact_nodes_cons.
         destruct n; try discriminate; simpl; unfold count_artifact_nodes; simpl; lia. }
    destruct (is_artifact_node n) eqn:Ea.
    + assert (Hc' : current_draft s <> None \/ n = N_drafting).
      { destruct n; try discriminate; intuition congruence. }
      destruct (artifact_step o n s u Ea Hc' Hu) as (Hcur & _ & Hcnt).
      assert (Hrun' :
        (fanout_round o (apply_update s u) = None /\
         out = Crashed (apply_update s u) /\ t = n :: critics) \/
        exists s2 t1, fanout_round o (apply_update s u) = Some s2 /\
          exec o f N_supervisor s2 = (t1, out) /\ t = n :: critics ++ t1).
      { destruct n; try discriminate; cbn [exec] in Hrun;
          (destruct (fanout_round o (apply_update s u)) as [s2|] eqn:Hf;
           [|left; inversion Hrun; subst; auto]);
          match type of Hrun with
          | context [exec ?oo ?ff ?m ?x] =>
              destruct (exec oo ff m x) as [t1 out1] eqn:E
          end;
          inversion Hrun; subst; right; eexists; eexists;
          (split; [reflexivity | split; [exact E | reflexivity]]). }
      destruct Hrun' as [(Hf & -> & ->) | (s2 & t1 & Hf & E & ->)].
      * cbn [outcome_state]. rewrite Hcnt, count_artifact_nodes_cons, Ea.
        unfold count_artifact_nodes. simpl. lia.
      * destruct (fanout_artifact_count o _ _ Hf) as [Hf1 Hf2].
        rewrite (IH _ _ _ _ E (or_introl (eq_ind_r (fun x => x <> None) Hcur Hf2))).
        rewrite Hf1, Hcnt, count_artifact_nodes_cons, Ea.
        unfold count_artifact_nodes. simpl. lia.
    + pose proof (artifact_count_keep s _ (node_keeps_drafts o n s u Ea Hu)) as Hk.
      pose proof (proj1 (apply_keeps_drafts s _ (node_keeps_drafts o n s u Ea Hu)))
        as Hkc.
      destruct n; try discriminate; cbn [next_node] in Hrun.
      * destruct (exec o f N_drafting _) as [t1 out1] eqn:E.
        inversion Hrun; subst.
        rewrite (IH _ _ _ _ E (or_intror (or_intror eq_refl))), Hk.
        rewrite count_artifact_nodes_cons. simpl. lia.
      * destruct (exec o f N_supervisor _) as [t1 out1] eqn:E.
        inversion Hrun; subst.
        rewrite (IH _ _ _ _ E), Hk; [rewrite count_artifact_nodes_cons; simpl; lia|].
        left. rewrite Hkc. intuition discriminate.
      * destruct (exec o f N_supervisor _) as [t1 out1] eqn:E.
        inversion Hrun; subst.
        rewrite (IH _ _ _ _ E), Hk; [rewrite count_artifact_nodes_cons; simpl; lia|].
        left. rewrite Hkc. intuition discriminate.
      * destruct (exec o f N_supervisor _) as [t1 out1] eqn:E.
        inversion Hrun; subst.
        rewrite (IH _ _ _ _ E), Hk; [rewrite count_artifact_nodes_cons; simpl; lia|].
        left. rewrite Hkc. intuition discriminate.
      * destruct (route_supervisor _) eqn:Er.
        -- inversion Hrun; subst. cbn [outcome_state].
           rewrite artifact_count_keep; [|split; reflexivity].
           transitivity (artifact_count s); [exact Hk|].
           unfold count_artifact_nodes. simpl. lia.
        -- destruct (exec o f N_revision _) as [t1 out1] eqn:E.
           inversion Hrun; subst.
           rewrite (IH _ _ _ _ E), Hk;
             [rewrite count_artifact_nodes_cons; simpl; lia|].
           left. rewrite Hkc. intuition discriminate.
        -- inversion Hrun; subst. cbn [outcome_state].
           transitivity (artifact_count s); [exact Hk|].
           unfold count_artifact_nodes. simpl. lia.
        -- inversion Hrun; subst. cbn [outcome_state].
           transitivity (artifact_count s); [exact Hk|].
           unfold count_artifact_nodes. simpl. lia.
        -- inversion Hrun; subst. cbn [outcome_state].
           transitivity (artifact_count s); [exact Hk|].
           unfold count_artifact_nodes. simpl. lia.
      * inversion Hrun; subst. cbn [outcome_state].
        transitivity (artifact_count s); [exact Hk|].
        unfold count_artifact_nodes. simpl. lia.
Qed.

(** C3: a drafting or revision step taken while a current draft exists
    returns, without raising, an update that sets a new current draft and
    appends the previous one at the end of the history; along any run the
    history only grows at its end (never reordered or truncated); and after
    a run from a fresh session whose trace contains N drafting/revision
    steps, [len(history) + (1 if current else 0) = N]. *)
Theorem draft_history_invariant (o : Oracle) (fuel : nat)
    (sid intent : string) (ctx : option string) (t : list Node) (out : Outcome)
    (Hrun : start o fuel (new_session_state sid intent ctx) = (t, out)) :
  artifact_count (outcome_state out) = count_artifact_nodes t /\
  (forall n s d, current_draft s = Some d -> is_artifact_node n = true ->
     exists u, run_node o n s = Some u /\
       u_current_draft u <> None /\
       u_draft_history u = Some (draft_history s ++ [d])) /\
  (forall fuel' n s t' out', exec o fuel' n s = (t', out') ->
     exists suf, draft_history (outcome_state out') = draft_history s ++ suf).
Proof.
  split; [|split].
  - rewrite (exec_artifact_count o fuel _ _ _ _ Hrun (or_intror (or_introl eq_refl))).
    reflexivity.
  - intros n s d Hd Hn.
    destruct n; try discriminate; eexists; (split; [reflexivity|]).
    + unfold run_drafting_agent. rewrite Hd. simpl. split; [discriminate | reflexivity].
    + unfold run_revision_agent. rewrite Hd. simpl. split; [discriminate | reflexivity].
  - intros fuel' n s t' out' H. exact (exec_history_prefix o fuel' n s t' out' H).
Qed.

Lemma draft_history_invariant_witness :
  let o := demo_oracle (Some (5 # 10)) None None in
  artifact_count (outcome_state (snd (start o 40 demo_session))) = 4%nat.
Proof.
  intros o.
  destruct (start o 40 demo_session) as [t out] eqn:E. simpl.
  rewrite (proj1 (draft_history_invariant o 40 _ _ _ t out E)).
  pose proof (f_equal fst E) as Et. vm_compute in Et. subst t.
  reflexivity.
Defined.

(** ** C9 *)

(** The patch built by [human_approve] carries the whole stored review
    list plus the human review under [reviews]; merged through the
    reducer, every stored review ends up twice. *)
Lemma human_patch_reviews (hid : string) (s : FoundryState)
    (req : HumanApproveRequest) :
  exists hr, reviews (apply_update s (human_approve_updates hid s req))
             = reviews s ++ reviews s ++ [hr].
Proof.
  unfold human_approve_updates.
  destruct (action req), (current_draft s) as [d|];
    try destruct (String.eqb _ _); simpl;
    eexists; unfold merge_reviews; rewrite ?app_assoc; reflexivity.
Qed.

(** C9, failing input: a session suspended at [await_human] after one
    round (three reviews), approved with APPROVE_FINAL: the final state
    holds seven reviews, the three stored ones twice and the human one. *)
Theorem human_approve_duplicates_reviews :
  let o := demo_oracle None None None in
  match start o 20 demo_session with
  | (_, Suspended s) =>
      List.length (reviews s) = 3%nat /\
      match human_approve o 5 "human-1" s (demo_request APPROVE_FINAL) with
      | (_, Ended _ s2) =>
          List.length (reviews s2) = 7%nat /\
          firstn 3 (reviews s2) = reviews s /\
          firstn 3 (skipn 3 (reviews s2)) = reviews s
      | _ => False
      end
  | _ => False
  end.
Proof. vm_compute. repeat split. Qed.

(* ================================================================== *)
(** * Further properties of the code

    Edge cases, invariants and round trips of the functions modelled
    above, beyond the statements of the specification. *)

(** ** The router and the supervisor *)

(** The router goes back to the revision node only on an explicit REVISING
    status or while [iteration < max_iterations]: the loop is bounded. *)
Theorem route_revision_bounded (s : FoundryState)
    (Hr : route_supervisor s = R_revision) :
  status s = REVISING \/ (iteration s < max_iterations s)%Z.
Proof.
  revert Hr. unfold route_supervisor.
  destruct (status s); simpl; try discriminate; auto;
    destruct (approve_after_revision s), (scores_passing s),
      (1 <=? iteration s)%Z; simpl; try discriminate;
    destruct (Z.ltb_spec (iteration s) (max_iterations s)); try discriminate;
    intros _; right; assumption.
Qed.

Lemma route_revision_bounded_witness :
  let s := mkState "s" "i" None None [] [] (Some (5 # 10)) (Some (9 # 10))
             (Some (9 # 10)) 2 4 REVIEWING false None in
  status s = REVISING \/ (iteration s < max_iterations s)%Z.
Proof. intros s. apply route_revision_bounded. vm_compute. reflexivity. Defined.

(** The supervisor writes only [status], [approve_after_revision] and
    [error]; the only statuses it writes are APPROVED and FAILED, and it
    writes APPROVED only in auto-finalize mode (flag set, status REVIEWING)
    on passing scores. *)
Theorem supervisor_writes_control_only (s : FoundryState) :
  let u := run_supervisor s in
  u_user_intent u = None /\ u_current_draft u = None /\
  u_draft_history u = None /\ u_reviews u = None /\
  u_safety_score u = None /\ u_empathy_score u = None /\
  u_clinical_score u = None /\ u_iteration u = None /\
  (u_status u = None \/ u_status u = Some APPROVED \/ u_status u = Some FAILED) /\
  (u_status u = Some APPROVED ->
     approve_after_revision s = true /\ status s = REVIEWING /\
     scores_passing s = true /\ u_error u = None) /\
  (u_status u = Some FAILED -> u_error u <> None).
Proof.
  unfold run_supervisor.
  destruct (critical_safety s).
  { simpl. intuition congruence. }
  destruct (approve_after_revision s) eqn:Ef, (status s) eqn:Es; simpl;
    destruct (scores_passing s) eqn:Ep; simpl;
    destruct (max_iterations s <=? iteration s)%Z; simpl;
    try destruct (1 <=? iteration s)%Z; simpl;
    intuition congruence.
Qed.

(** Every supervisor step that ends at the failure terminal, on a state not
    already failed and with [max_iterations >= 1], has set status FAILED
    together with an error message. *)
Theorem supervisor_failure_has_error (s : FoundryState)
    (Hst : status s <> FAILED) (Hmax : (1 <= max_iterations s)%Z)
    (Hr : route_supervisor (apply_update s (run_supervisor s)) = R_FAILED) :
  status (apply_update s (run_supervisor s)) = FAILED /\
  error (apply_update s (run_supervisor s)) <> None.
Proof.
  revert Hr. unfold run_supervisor.
  destruct (critical_safety s); [intros _; split; [reflexivity|discriminate]|].
  destruct (approve_after_revision s && status_eqb (status s) REVIEWING) eqn:Ef.
  - apply andb_true_iff in Ef as [Ef Es]. apply status_eqb_eq in Es.
    destruct (scores_passing s) eqn:Ep.
    + discriminate.
    + destruct (Z.leb_spec (max_iterations s) (iteration s)).
      * intros _. split; [reflexivity|discriminate].
      * rewrite apply_update_empty. unfold route_supervisor.
        rewrite Es, Ef, Ep. simpl.
        destruct (Z.ltb_spec (iteration s) (max_iterations s)); [discriminate|lia].
  - destruct (scores_passing s && (1 <=? iteration s))%Z eqn:Ea.
    + rewrite apply_update_empty. unfold route_supervisor.
      rewrite Ef, Ea.
      destruct (status s); simpl; try discriminate. contradiction.
    + destruct (Z.leb_spec (max_iterations s) (iteration s)).
      * destruct (scores_passing s) eqn:Ep; simpl.
        -- rewrite apply_update_empty. intros _. exfalso.
           simpl in Ea. apply Z.leb_gt in Ea. lia.
        -- intros _. split; [reflexivity|discriminate].
      * rewrite apply_update_empty. unfold route_supervisor.
        rewrite Ef, Ea.
        destruct (Z.ltb_spec (iteration s) (max_iterations s)); [|lia].
        destruct (status s); simpl; try discriminate. contradiction.
Qed.

Lemma supervisor_failure_has_error_witness :
  let s := mkState "s" "i" None None [] [] (Some (5 # 10)) (Some (9 # 10))
             (Some (9 # 10)) 4 4 REVIEWING false None in
  error (apply_update s (run_supervisor s)) <> None.
Proof.
  intros s.
  apply (supervisor_failure_has_error s); [discriminate | vm_compute; discriminate |
    vm_compute; reflexivity].
Defined.

(** ** The reviewers *)

Lemma clamp01_range (x : Q) : (0 <= clamp01 x <= 1)%Q.
Proof.
  unfold clamp01.
  destruct (Qle_bool x 1) eqn:E1.
  - apply Qle_bool_iff in E1.
    destruct (Qle_bool 0 x) eqn:E2.
    + apply Qle_bool_iff in E2. split; assumption.
    + split; unfold Qle; simpl; lia.
  - split; unfold Qle; simpl; lia.
Qed.

Lemma reviewer_score_range (default : Q) (raw : option Q) :
  (0 <= default <= 1)%Q -> (0 <= reviewer_score default raw <= 1)%Q.
Proof. intros H. destruct raw; simpl; [apply clamp01_range | exact H]. Qed.

(** The update of each reviewer that does not raise, on a state with a
    current draft. *)
Lemma safety_shape (o : Oracle) (s : FoundryState) (d : Draft) (u : StateUpdate)
    (Hd : current_draft s = Some d) (Hu : run_safety_guardian o s = Some u) :
  exists r a,
    u = mkUpdate None None None (Some [r]) (Some a) None None None None None None /\
    r_agent_name r = "SafetyGuardian" /\ r_target_draft_id r = d_id d /\
    r_safety_score r = Some a /\ (0 <= a <= 1)%Q.
Proof.
  unfold run_safety_guardian in Hu. rewrite Hd in Hu.
  destruct (llm_review o "SafetyGuardian" s) as [|raw v]; cbn beta iota in Hu;
    (destruct (str_field _); [|discriminate]); injection Hu as <-;
    (do 2 eexists; split; [reflexivity|]); repeat split;
    try (apply reviewer_score_range); unfold Qle; simpl; lia.
Qed.

Lemma empathy_shape (o : Oracle) (s : FoundryState) (d : Draft) (u : StateUpdate)
    (Hd : current_draft s = Some d) (Hu : run_empathy_tone_agent o s = Some u) :
  exists r b,
    u = mkUpdate None None None (Some [r]) None (Some b) None None None None None /\
    r_agent_name r = "EmpathyToneAgent" /\ r_target_draft_id r = d_id d /\
    r_empathy_score r = Some b /\ (0 <= b <= 1)%Q.
Proof.
  unfold run_empathy_tone_agent in Hu. rewrite Hd in Hu.
  destruct (llm_review o "EmpathyToneAgent" s) as [|raw v]; cbn beta iota in Hu;
    (destruct (str_field _); [|discriminate]); injection Hu as <-;
    (do 2 eexists; split; [reflexivity|]); repeat split;
    try (apply reviewer_score_range); unfold Qle; simpl; lia.
Qed.

Lemma clinical_shape (o : Oracle) (s : FoundryState) (d : Draft) (u : StateUpdate)
    (Hd : current_draft s = Some d) (Hu : run_clinical_critic o s = Some u) :
  exists r c,
    u = mkUpdate None None None (Some [r]) None None (Some c) None None None None /\
    r_agent_name r = "ClinicalCritic" /\ r_target_draft_id r = d_id d /\
    r_clinical_score r = Some c /\ (0 <= c <= 1)%Q.
Proof.
  unfold run_clinical_critic in Hu. rewrite Hd in Hu.
  destruct (llm_review o "ClinicalCritic" s) as [|raw v]; cbn beta iota in Hu;
    (destruct (str_field _); [|discriminate]); injection Hu as <-;
    (do 2 eexists; split; [reflexivity|]); repeat split;
    try (apply reviewer_score_range); unfold Qle; simpl; lia.
Qed.

Lemma fanout_round_unfold (o : Oracle) (s s2 : FoundryState) :
  fanout_round o s = Some s2 ->
  exists uc ue us,
    run_clinical_critic o s = Some uc /\ run_empathy_tone_agent o s = Some ue /\
    run_safety_guardian o s = Some us /\ s2 = apply_updates s [uc; ue; us].
Proof.
  unfold fanout_round. cbn [map fanin_order run_node all_returned].
  destruct (run_clinical_critic o s) as [uc|]; [|discriminate].
  destruct (run_empathy_tone_agent o s) as [ue|]; [|discriminate].
  destruct (run_safety_guardian o s) as [us|]; [|discriminate].
  intros H. injection H as <-. exists uc, ue, us. auto.
Qed.

(** ** The fan-out round *)

(** A round of the three reviewers on a state with a current draft, when
    no reviewer raises, appends exactly three reviews, in the order in which
    LangGraph applies the writes (node names [clinical], [empathy],
    [safety]): ClinicalCritic, EmpathyToneAgent, SafetyGuardian, all
    targeting the current draft; it sets the three scores to the scores of
    these reviews, each in [[0, 1]]; it leaves the status, the flag, the
    counters, the error and the drafts as they were. *)
Theorem fanout_round_spec (o : Oracle) (s s2 : FoundryState) (d : Draft)
    (Hd : current_draft s = Some d) (Hr : fanout_round o s = Some s2) :
  (exists rc re rs a b c,
     reviews s2 = reviews s ++ [rc; re; rs] /\
     map r_agent_name [rc; re; rs] =
       ["ClinicalCritic"; "EmpathyToneAgent"; "SafetyGuardian"] /\
     map r_target_draft_id [rc; re; rs] = [d_id d; d_id d; d_id d] /\
     r_clinical_score rc = Some c /\ r_empathy_score re = Some b /\
     r_safety_score rs = Some a /\
     safety_score s2 = Some a /\ empathy_score s2 = Some b /\
     clinical_score s2 = Some c /\
     (0 <= a <= 1)%Q /\ (0 <= b <= 1)%Q /\ (0 <= c <= 1)%Q) /\
  status s2 = status s /\ approve_after_revision s2 = approve_after_revision s /\
  iteration s2 = iteration s /\ max_iterations s2 = max_iterations s /\
  error s2 = error s /\ current_draft s2 = current_draft s /\
  draft_history s2 = draft_history s.
Proof.
  pose proof (fanout_keeps_control o s s2 Hr) as Hc.
  unfold control in Hc. injection Hc as H1 H2 H3 H4 H5 H6 H7.
  split; [|repeat split; assumption].
  destruct (fanout_round_unfold o s s2 Hr) as (uc & ue & us & Hc & He & Hs & ->).
  destruct (clinical_shape o s d uc Hd Hc) as (rc & c & -> & Nc & Tc & Sc & [Rc1 Rc2]).
  destruct (empathy_shape o s d ue Hd He) as (re & b & -> & Ne & Te & Se & [Re1 Re2]).
  destruct (safety_shape o s d us Hd Hs) as (rs & a & -> & Ns & Ts & Ss & [Rs1 Rs2]).
  exists rc, re, rs, a, b, c.
  split.
  { unfold apply_updates. simpl. unfold merge_reviews.
    rewrite <- !app_assoc. reflexivity. }
  simpl. rewrite Nc, Ne, Ns, Tc, Te, Ts.
  repeat split; try reflexivity; assumption.
Qed.

Lemma fanout_round_spec_witness :
  let o := demo_oracle (Some (3 # 2)) None (Some (-1 # 2)) in
  let s := apply_update demo_session (run_drafting_agent o demo_session) in
  match fanout_round o s with
  | Some s2 => List.length (reviews s2) = 3%nat
  | None => False
  end.
Proof.
  intros o s.
  destruct (fanout_round o s) as [s2|] eqn:E; [|vm_compute in E; discriminate].
  destruct (fanout_round_spec o s s2
              (mkDraft "DraftingAgent0" "DraftingAgent" "DraftingAgent" None 1)
              eq_refl E) as ((rc & re & rs & a & b & c & Hr & _) & _).
  rewrite Hr. reflexivity.
Defined.

Lemma all_returned_3_none (a b c : option StateUpdate) :
  all_returned [a; b; c] = None <-> a = None \/ b = None \/ c = None.
Proof.
  destruct a, b, c; simpl; split; intros H;
    try discriminate; try reflexivity; intuition discriminate.
Qed.

Lemma safety_raises (o : Oracle) (s : FoundryState) (d : Draft)
    (Hd : current_draft s = Some d) :
  run_safety_guardian o s = None <->
  exists raw, llm_review o "SafetyGuardian" s = T_ok raw (Some (JOther true)).
Proof.
  unfold run_safety_guardian. rewrite Hd.
  destruct (llm_review o "SafetyGuardian" s) as [|raw [[v| |[|]]|]];
    cbn beta iota; simpl;
    try (destruct (String.eqb v "")); simpl;
    split; intros H; try discriminate;
    try (destruct H; discriminate);
    try (exists raw; reflexivity); reflexivity.
Qed.

Lemma empathy_raises (o : Oracle) (s : FoundryState) (d : Draft)
    (Hd : current_draft s = Some d) :
  run_empathy_tone_agent o s = None <->
  exists raw, llm_review o "EmpathyToneAgent" s = T_ok raw (Some (JOther true)).
Proof.
  unfold run_empathy_tone_agent. rewrite Hd.
  destruct (llm_review o "EmpathyToneAgent" s) as [|raw [[v| |[|]]|]];
    cbn beta iota; simpl;
    try (destruct (String.eqb v "")); simpl;
    split; intros H; try discriminate;
    try (destruct H; discriminate);
    try (exists raw; reflexivity); reflexivity.
Qed.

Lemma clinical_raises (o : Oracle) (s : FoundryState) (d : Draft)
    (Hd : current_draft s = Some d) :
  run_clinical_critic o s = None <->
  exists raw v, llm_review o "ClinicalCritic" s = T_ok raw (Some v) /\
                forall t, v <> JStr t.
Proof.
  unfold run_clinical_critic. rewrite Hd.
  destruct (llm_review o "ClinicalCritic" s) as [|raw [[v| |b]|]];
    cbn beta iota; simpl; split; intros H; try discriminate.
  - destruct H as (r & w & H & Hw). discriminate.
  - destruct H as (r & w & H & Hw). injection H as _ <-. exfalso; exact (Hw v eq_refl).
  - exists raw, JNull. split; [reflexivity | discriminate].
  - reflexivity.
  - exists raw, (JOther b). split; [reflexivity | discriminate].
  - reflexivity.
  - destruct H as (r & w & H & Hw). discriminate.
Qed.

(** On a state with a current draft, a round of the reviewers raises
    exactly when the ClinicalCritic's reply has a summary that is not a
    string ([null], a number, a boolean, a list or an object), or the
    EmpathyToneAgent's or the SafetyGuardian's reply has a summary that is
    a truthy non-string (their [or] fallback covers the falsy ones); a
    missing summary or a failed call never raises. *)
Theorem fanout_raises_iff (o : Oracle) (s : FoundryState) (d : Draft)
    (Hd : current_draft s = Some d) :
  fanout_round o s = None <->
  (exists raw v, llm_review o "ClinicalCritic" s = T_ok raw (Some v) /\
                 forall t, v <> JStr t) \/
  (exists raw, llm_review o "EmpathyToneAgent" s = T_ok raw (Some (JOther true))) \/
  (exists raw, llm_review o "SafetyGuardian" s = T_ok raw (Some (JOther true))).
Proof.
  rewrite <- (clinical_raises o s d Hd), <- (empathy_raises o s d Hd),
    <- (safety_raises o s d Hd), <- all_returned_3_none.
  unfold fanout_round. cbn [map fanin_order run_node].
  destruct (all_returned _); split; intros H; try discriminate; reflexivity.
Qed.

Lemma fanout_raises_iff_witness :
  let o := mkOracle (fun n _ => n)
             (fun n _ => if String.eqb n "ClinicalCritic" then T_ok None (Some JNull)
                         else T_ok None (Some (JStr "ok")))
             (fun _ _ => "rationale") (fun n _ => n) in
  let s := apply_update demo_session (run_drafting_agent o demo_session) in
  fanout_round o s = None.
Proof.
  intros o s.
  apply (proj2 (fanout_raises_iff o s
                  (mkDraft "DraftingAgent" "DraftingAgent" "DraftingAgent" None 1)
                  eq_refl)).
  left. exists None, JNull. split; [reflexivity | discriminate].
Defined.

(** Resuming a suspended state whose status was set to REJECTED runs only
    the supervisor and ends at the rejection terminal. *)
Lemma resume_patched_rejected (o : Oracle) (fuel : nat) (s1 p : FoundryState)
    (Hr : route_supervisor s1 = R_await_human)
    (Hst : status p = REJECTED)
    (Hsc : scores_passing p = scores_passing s1)
    (Hit : iteration p = iteration s1) :
  resume o (S fuel) p = ([N_supervisor], Ended R_rejected p).
Proof.
  destruct (route_await_inv s1 Hr) as [Hp Hi].
  rewrite <- Hsc in Hp. rewrite <- Hit in Hi.
  assert (Hsup : run_supervisor p = empty_update).
  { unfold run_supervisor.
    rewrite (passing_not_critical p Hp), Hst, Hp, Hi. simpl.
    destruct (approve_after_revision p); reflexivity. }
  unfold resume. cbn [next_node exec run_node]. rewrite Hsup, apply_update_empty.
  unfold route_supervisor at 1. rewrite Hst. reflexivity.
Qed.

(** ** The human edit in [human_approve] *)

(** For an instance suspended at [await_human] with a current draft [d],
    [human_approve] with APPROVE_FINAL or REJECT runs only the supervisor and
    ends at a terminal in a state whose current draft carries the requested
    content with [d]'s id, author, parent and version (the draft is edited
    in place, not versioned); the history, the counter and the scores are
    those of the suspended state. *)
Theorem human_edit_in_place (o : Oracle) (fuel fuel' : nat) (n : Node)
    (s s' : FoundryState) (t : list Node)
    (Hn : n <> N_await_human) (Hrun : exec o fuel n s = (t, Suspended s'))
    (d : Draft) (Hd : current_draft s' = Some d)
    (hid : string) (req : HumanApproveRequest)
    (Hact : action req = APPROVE_FINAL \/ action req = REJECT) :
  exists l sf,
    human_approve o (S fuel') hid s' req = ([N_supervisor], Ended l sf) /\
    (exists d',
       current_draft sf = Some d' /\ d_content d' = new_content req /\
       d_id d' = d_id d /\ d_created_by d' = d_created_by d /\
       d_parent_draft_id d' = d_parent_draft_id d /\
       d_version_number d' = d_version_number d) /\
    draft_history sf = draft_history s' /\ iteration sf = iteration s' /\
    safety_score sf = safety_score s' /\ empathy_score sf = empathy_score s' /\
    clinical_score sf = clinical_score s'.
Proof.
  destruct (exec_suspended_inv o fuel n s t s' Hn Hrun) as (s1 & Hr & Hs').
  remember (apply_update s' (human_approve_updates hid s' req)) as p eqn:Hp.
  assert (Hedit :
    (exists d',
       current_draft p = Some d' /\ d_content d' = new_content req /\
       d_id d' = d_id d /\ d_created_by d' = d_created_by d /\
       d_parent_draft_id d' = d_parent_draft_id d /\
       d_version_number d' = d_version_number d) /\
    draft_history p = draft_history s' /\ iteration p = iteration s' /\
    safety_score p = safety_score s' /\ empathy_score p = empathy_score s' /\
    clinical_score p = clinical_score s' /\
    scores_passing p = scores_passing s').
  { subst p. unfold human_approve_updates. rewrite Hd.
    destruct (String.eqb (new_content req) (d_content d)) eqn:Ec.
    - apply String.eqb_eq in Ec.
      destruct (action req); cbn; rewrite ?Hd;
        (split; [exists d; split; [reflexivity | split; [symmetry; exact Ec | repeat split]]
                | repeat split]).
    - destruct (action req); cbn;
        (split; [eexists; repeat split | repeat split]). }
  destruct Hedit as (Hed & Hh & Hi & Hsa & Hse & Hsc & Hpass).
  assert (Hs1 : scores_passing s' = scores_passing s1 /\ iteration s' = iteration s1).
  { rewrite Hs'. split; reflexivity. }
  destruct Hs1 as [Hps Hit].
  unfold human_approve. rewrite <- Hp.
  destruct Hact as [Hact|Hact].
  - exists R_approved, p. split.
    + apply (resume_patched_approved o fuel' s1 p Hr).
      * subst p. unfold human_approve_updates. rewrite Hact.
        destruct (current_draft s'); [destruct (String.eqb _ _)|]; reflexivity.
      * congruence.
      * congruence.
    + repeat (split; [assumption|]); assumption.
  - exists R_rejected, p. split.
    + apply (resume_patched_rejected o fuel' s1 p Hr).
      * subst p. unfold human_approve_updates. rewrite Hact.
        destruct (current_draft s'); [destruct (String.eqb _ _)|]; reflexivity.
      * congruence.
      * congruence.
    + repeat (split; [assumption|]); assumption.
Qed.

Lemma human_edit_in_place_witness :
  let o := demo_oracle None None None in
  match start o 20 demo_session with
  | (_, Suspended s') =>
      exists l sf,
        human_approve o 1 "h" s' (demo_request APPROVE_FINAL)
          = ([N_supervisor], Ended l sf) /\
        exists d', current_draft sf = Some d' /\
                   d_content d' = "edited protocol" /\ d_version_number d' = 1%Z
  | _ => False
  end.
Proof.
  intros o.
  destruct (start o 20 demo_session) as [t out] eqn:E.
  destruct out as [l sf|s'|sf|sf]; try (vm_compute in E; discriminate).
  pose proof (f_equal (fun r => match snd r with
                                | Suspended x => current_draft x
                                | _ => None
                                end) E) as Hd.
  vm_compute in Hd. symmetry in Hd.
  rewrite start_exec in E.
  destruct (human_edit_in_place o 20 0 N_intent_interpreter demo_session s' t
              ltac:(discriminate) E _ Hd "h" (demo_request APPROVE_FINAL)
              (or_introl eq_refl))
    as (l & sf & H1 & (d' & Hd' & Hc & _ & _ & _ & Hv) & _).
  exists l, sf. split; [exact H1|].
  exists d'. split; [exact Hd'|]. split; [exact Hc|]. rewrite Hv. reflexivity.
Defined.

(** ** The auto-finalize mode after APPROVE_CONTINUE *)

(** The supervisor in auto-finalize mode (flag set, status REVISING or
    REVIEWING) never routes to [await_human]; when it routes back to the
    revision node the mode is kept. *)
Lemma flag_supervisor_step (s : FoundryState)
    (Hf : approve_after_revision s = true)
    (Hs : status s = REVISING \/ status s = REVIEWING) :
  let s1 := apply_update s (run_supervisor s) in
  route_supervisor s1 <> R_await_human /\
  (route_supervisor s1 = R_revision ->
     approve_after_revision s1 = true /\
     (status s1 = REVISING \/ status s1 = REVIEWING)).
Proof.
  intros s1. subst s1. unfold run_supervisor.
  destruct (critical_safety s).
  { unfold route_supervisor. simpl. split; discriminate. }
  rewrite Hf.
  destruct Hs as [Hs|Hs]; rewrite Hs; simpl.
  - destruct (scores_passing s && (1 <=? iteration s))%Z.
    + rewrite apply_update_empty. unfold route_supervisor.
      rewrite Hs. simpl. split; [discriminate|]. auto.
    + destruct (max_iterations s <=? iteration s)%Z;
        [destruct (negb (scores_passing s))|].
      * unfold route_supervisor. simpl. split; discriminate.
      * rewrite apply_update_empty. unfold route_supervisor.
        rewrite Hs. simpl. split; [discriminate|]. auto.
      * rewrite apply_update_empty. unfold route_supervisor.
        rewrite Hs. simpl. split; [discriminate|]. auto.
  - destruct (scores_passing s) eqn:Ep.
    + unfold route_supervisor. simpl. split; discriminate.
    + destruct (max_iterations s <=? iteration s)%Z.
      * unfold route_supervisor. simpl. split; discriminate.
      * rewrite apply_update_empty. unfold route_supervisor.
        rewrite Hs, Hf, Ep. simpl.
        destruct (iteration s <? max_iterations s)%Z;
          split; try discriminate; auto.
Qed.

(** A run that enters the supervisor or the revision node in
    auto-finalize mode never suspends. *)
Lemma flag_run_never_suspends (o : Oracle) (fuel : nat) :
  forall n s t out, exec o fuel n s = (t, out) ->
  n = N_supervisor \/ n = N_revision ->
  approve_after_revision s = true ->
  (status s = REVISING \/ status s = REVIEWING) ->
  forall s', out <> Suspended s'.
Proof.
  induction fuel as [|f IH]; intros n s t out Hrun Hn Hf Hs s'.
  - simpl in Hrun. inversion Hrun. discriminate.
  - destruct Hn as [->| ->]; cbn [exec run_node] in Hrun.
    + destruct (flag_supervisor_step s Hf Hs) as [Hna Hrev].
      destruct (route_supervisor _) eqn:Er; try (inversion Hrun; discriminate).
      * contradiction.
      * destruct (Hrev eq_refl) as [Hf1 Hs1].
        destruct (exec o f N_revision _) as [t1 out1] eqn:E.
        inversion Hrun; subst.
        exact (IH _ _ _ _ E (or_intror eq_refl) Hf1 Hs1 s').
    + destruct (fanout_round o (apply_update s (run_revision_agent o s)))
        as [s2|] eqn:Ef; [|inversion Hrun; discriminate].
      destruct (exec o f N_supervisor s2) as [t1 out1] eqn:E.
      inversion Hrun; subst.
      pose proof (fanout_keeps_control o _ s2 Ef) as Hc.
      unfold control in Hc. injection Hc as _ _ _ _ Hst2 Hf2 _.
      eapply IH; [exact E | left; reflexivity | |].
      * rewrite Hf2. unfold run_revision_agent.
        destruct (current_draft s); cbn; exact Hf.
      * rewrite Hst2. unfold run_revision_agent.
        destruct (current_draft s); cbn; [right; reflexivity | exact Hs].
Qed.

(** [human_approve] with APPROVE_CONTINUE, on any stored state and with
    any step budget, never brings the run back to [await_human]: the run
    ends at a terminal, raises, or runs out of budget, without asking the
    human again. *)
Theorem human_continue_never_suspends (o : Oracle) (fuel : nat) (hid : string)
    (cur : FoundryState) (req : HumanApproveRequest)
    (Hact : action req = APPROVE_CONTINUE) :
  match snd (human_approve o fuel hid cur req) with
  | Suspended _ => False
  | _ => True
  end.
Proof.
  destruct (human_approve o fuel hid cur req) as [t out] eqn:E.
  destruct out as [l sf|s'|sf|sf]; simpl; try exact I.
  unfold human_approve, resume in E. cbn [next_node] in E.
  refine (flag_run_never_suspends o fuel _ _ _ _ E (or_introl eq_refl) _ _ s' eq_refl).
  - unfold human_approve_updates. rewrite Hact.
    destruct (current_draft cur); [destruct (String.eqb _ _)|]; reflexivity.
  - left. unfold human_approve_updates. rewrite Hact.
    destruct (current_draft cur); [destruct (String.eqb _ _)|]; reflexivity.
Qed.

Lemma human_continue_never_suspends_witness :
  let o := demo_oracle None None None in
  match start o 20 demo_session with
  | (_, Suspended s') =>
      match snd (human_approve o 30 "h" s' (demo_request APPROVE_CONTINUE)) with
      | Suspended _ => False
      | _ => True
      end
  | _ => False
  end.
Proof.
  intros o.
  destruct (start o 20 demo_session) as [t out] eqn:E.
  destruct out as [l sf|s'|sf|sf]; try (vm_compute in E; discriminate).
  apply human_continue_never_suspends. reflexivity.
Defined.

(** ** The other two human actions *)

(** [human_approve] with REJECT on an instance suspended at [await_human]
    runs only the supervisor and ends at the rejection terminal with status
    REJECTED. *)
Theorem human_reject_ends_rejected (o : Oracle) (fuel fuel' : nat)
    (n : Node) (s s' : FoundryState) (t : list Node)
    (Hn : n <> N_await_human) (Hrun : exec o fuel n s = (t, Suspended s'))
    (hid : string) (req : HumanApproveRequest) (Hact : action req = REJECT) :
  exists sf, human_approve o (S fuel') hid s' req
               = ([N_supervisor], Ended R_rejected sf) /\
             status sf = REJECTED.
Proof.
  destruct (exec_suspended_inv o fuel n s t s' Hn Hrun) as (s1 & Hr & ->).
  unfold human_approve. eexists; split.
  - apply (resume_patched_rejected o fuel' s1); [exact Hr | | |].
    all: unfold human_approve_updates; rewrite Hact;
      destruct (current_draft _); [destruct (String.eqb _ _)|];
      reflexivity.
  - unfold human_approve_updates. rewrite Hact.
    destruct (current_draft _); [destruct (String.eqb _ _)|]; reflexivity.
Qed.

Lemma human_reject_ends_rejected_witness :
  let o := demo_oracle None None None in
  match start o 20 demo_session with
  | (_, Suspended s') =>
      exists sf, human_approve o 1 "h" s' (demo_request REJECT)
                   = ([N_supervisor], Ended R_rejected sf) /\
                 status sf = REJECTED
  | _ => False
  end.
Proof.
  intros o.
  destruct (start o 20 demo_session) as [t out] eqn:E.
  destruct out as [l sf|s'|sf|sf]; try (vm_compute in E; discriminate).
  rewrite start_exec in E.
  exact (human_reject_ends_rejected o 20 0 N_intent_interpreter demo_session
           s' t ltac:(discriminate) E "h" (demo_request REJECT) eq_refl).
Defined.

(** [human_approve] with REQUEST_REVISION on an instance suspended at
    [await_human] runs the supervisor, then the revision node, then the
    three reviewers again (given at least two steps of budget). *)
Theorem human_request_revision_reruns (o : Oracle) (fuel fuel' : nat)
    (n : Node) (s s' : FoundryState) (t : list Node)
    (Hn : n <> N_await_human) (Hrun : exec o fuel n s = (t, Suspended s'))
    (hid : string) (req : HumanApproveRequest)
    (Hact : action req = REQUEST_REVISION) :
  exists t' out, human_approve o (S (S fuel')) hid s' req
                   = (N_supervisor :: N_revision :: critics ++ t', out).
Proof.
  destruct (exec_suspended_inv o fuel n s t s' Hn Hrun) as (s1 & Hr & ->).
  destruct (route_await_inv s1 Hr) as [Hp Hi].
  remember (apply_update (apply_update s1 (await_human s1))
              (human_approve_updates hid (apply_update s1 (await_human s1)) req))
    as p eqn:Hpdef.
  assert (Hst : status p = REVISING /\ scores_passing p = scores_passing s1 /\
                iteration p = iteration s1).
  { rewrite Hpdef. unfold human_approve_updates. rewrite Hact.
    destruct (current_draft _); [destruct (String.eqb _ _)|];
      repeat split. }
  destruct Hst as (Hst & Hsc & Hit).
  rewrite <- Hsc in Hp. rewrite <- Hit in Hi.
  assert (Hsup : run_supervisor p = empty_update).
  { unfold run_supervisor.
    rewrite (passing_not_critical p Hp), Hst, Hp, Hi.
    destruct (approve_after_revision p); reflexivity. }
  unfold human_approve. rewrite <- Hpdef. unfold resume.
  cbn [next_node exec run_node].
  rewrite Hsup, apply_update_empty.
  assert (Hrt : route_supervisor p = R_revision).
  { unfold route_supervisor. rewrite Hst. reflexivity. }
  rewrite Hrt. cbn [exec run_node].
  destruct (fanout_round o _) as [s2|].
  - destruct (exec o fuel' N_supervisor s2) as [t1 out1].
    exists t1, out1. reflexivity.
  - exists [], (Crashed (apply_update p (run_revision_agent o p))).
    rewrite app_nil_r. reflexivity.
Qed.

Lemma human_request_revision_reruns_witness :
  let o := demo_oracle None None None in
  match start o 20 demo_session with
  | (_, Suspended s') =>
      exists t' out, human_approve o 12 "h" s' (demo_request REQUEST_REVISION)
                       = (N_supervisor :: N_revision :: critics ++ t', out)
  | _ => False
  end.
Proof.
  intros o.
  destruct (start o 20 demo_session) as [t out] eqn:E.
  destruct out as [l sf|s'|sf|sf]; try (vm_compute in E; discriminate).
  rewrite start_exec in E.
  exact (human_request_revision_reruns o 20 10 N_intent_interpreter demo_session
           s' t ltac:(discriminate) E "h" (demo_request REQUEST_REVISION) eq_refl).
Defined.

(** ** The iteration counter and the drafts *)

Lemma node_iteration_keep (o : Oracle) (n : Node) (s : FoundryState)
    (u : StateUpdate) :
  is_artifact_node n = false -> run_node o n s = Some u -> u_iteration u = None.
Proof.
  intros H Hu.
  assert (Hcrit : In n fanin_order -> u_iteration u = None).
  { intros Hin. destruct (critic_keeps_control o n s u Hin Hu) as (_ & Hi & _).
    exact Hi. }
  destruct n; try discriminate; cbn [run_node] in Hu;
    try (apply Hcrit; simpl; tauto); injection Hu as <-; [reflexivity| |reflexivity].
  unfold run_supervisor.
  repeat match goal with
         | |- context [match ?x with _ => _ end] => destruct x
         end; reflexivity.
Qed.

(** Every node keeps [len(history) + (1 if current else 0) - iteration]. *)
Lemma node_gap (o : Oracle) (n : Node) (s : FoundryState) (u : StateUpdate)
    (Hu : run_node o n s = Some u) :
  (Z.of_nat (artifact_count (apply_update s u)) - iteration (apply_update s u) =
   Z.of_nat (artifact_count s) - iteration s)%Z.
Proof.
  destruct (is_artifact_node n) eqn:Ea.
  - destruct n; try discriminate.
    + destruct (artifact_step o N_drafting s u eq_refl (or_intror eq_refl) Hu)
        as (_ & _ & Hc).
      injection Hu as <-.
      rewrite Hc, Nat2Z.inj_succ. simpl. lia.
    + destruct (current_draft s) eqn:Ecur.
      * assert (Hne : current_draft s <> None) by (rewrite Ecur; discriminate).
        destruct (artifact_step o N_revision s u eq_refl (or_introl Hne) Hu)
          as (_ & _ & Hc).
        injection Hu as <-.
        rewrite Hc, Nat2Z.inj_succ. simpl. unfold run_revision_agent. rewrite Ecur.
        simpl. lia.
      * injection Hu as <-. unfold run_revision_agent. rewrite Ecur, apply_update_empty.
        reflexivity.
  - rewrite (artifact_count_keep s _ (node_keeps_drafts o n s u Ea Hu)).
    change (iteration (apply_update s u)) with (replace (iteration s) (u_iteration u)).
    rewrite (node_iteration_keep o n s u Ea Hu).
    reflexivity.
Qed.

Lemma fanout_gap (o : Oracle) (s s2 : FoundryState) (Hf : fanout_round o s = Some s2) :
  (Z.of_nat (artifact_count s2) - iteration s2 =
   Z.of_nat (artifact_count s) - iteration s)%Z.
Proof.
  pose proof (fanout_keeps_control o s s2 Hf) as Hc.
  unfold control in Hc. injection Hc as _ _ Hi _ _ _ _.
  rewrite (proj1 (fanout_artifact_count o s s2 Hf)), Hi.
  reflexivity.
Qed.

Lemma exec_gap (o : Oracle) (fuel : nat) :
  forall n s t out, exec o fuel n s = (t, out) ->
  (Z.of_nat (artifact_count (outcome_state out)) - iteration (outcome_state out) =
   Z.of_nat (artifact_count s) - iteration s)%Z.
Proof.
  induction fuel as [|f IH]; intros n s t out Hrun.
  - simpl in Hrun. inversion Hrun; subst. reflexivity.
  - cbn [exec] in Hrun.
    destruct (run_node o n s) as [u|] eqn:Hu; [|inversion Hrun; subst; reflexivity].
    pose proof (node_gap o n s u Hu) as Hg.
    destruct n; cbn [next_node] in Hrun.
    all: try (destruct (fanout_round o (apply_update s u)) as [s2|] eqn:Hf;
              [|inversion Hrun; subst; exact Hg]).
    all: try (match type of Hrun with
              | context [exec ?oo ?ff ?m ?x] =>
                  destruct (exec oo ff m x) as [t1 out1] eqn:E
              end;
              inversion Hrun; subst;
              rewrite (IH _ _ _ _ E); try rewrite (fanout_gap o _ _ Hf); exact Hg).
    + destruct (route_supervisor _) eqn:Er.
      * inversion Hrun; subst. cbn [outcome_state].
        rewrite <- Hg.
        exact (node_gap o N_await_human (apply_update s u) _ eq_refl).
      * destruct (exec o f N_revision _) as [t1 out1] eqn:E.
        inversion Hrun; subst. rewrite (IH _ _ _ _ E). exact Hg.
      * inversion Hrun; subst. exact Hg.
      * inversion Hrun; subst. exact Hg.
      * inversion Hrun; subst. exact Hg.
    + inversion Hrun; subst. exact Hg.
Qed.

(** After any run from a fresh session, the iteration counter equals the
    number of drafts made, [len(history) + (1 if current else 0)], and the
    number of drafting and revision steps of the run. *)
Theorem iteration_counts_drafts (o : Oracle) (fuel : nat)
    (sid intent : string) (ctx : option string) (t : list Node) (out : Outcome)
    (Hrun : start o fuel (new_session_state sid intent ctx) = (t, out)) :
  iteration (outcome_state out) = Z.of_nat (artifact_count (outcome_state out)) /\
  iteration (outcome_state out) = Z.of_nat (count_artifact_nodes t).
Proof.
  pose proof (exec_gap o fuel _ _ _ _ Hrun) as Hg.
  pose proof (exec_artifact_count o fuel _ _ _ _ Hrun
                (or_intror (or_introl eq_refl))) as Hc.
  simpl in Hg, Hc. rewrite Hc in *. lia.
Qed.

Lemma iteration_counts_drafts_witness :
  let o := demo_oracle (Some (5 # 10)) None None in
  iteration (outcome_state (snd (start o 40 demo_session))) = 4%Z.
Proof.
  intros o.
  destruct (start o 40 demo_session) as [t out] eqn:E. simpl.
  rewrite (proj2 (iteration_counts_drafts o 40 _ _ _ t out E)).
  pose proof (f_equal fst E) as Et. vm_compute in Et. subst t.
  reflexivity.
Defined.

(** ** A fresh run *)

Lemma fanout_scores (o : Oracle) (s s2 : FoundryState) :
  current_draft s <> None -> fanout_round o s = Some s2 ->
  scores_present s2 = true /\
  List.length (reviews s2) = (List.length (reviews s) + 3)%nat.
Proof.
  intros H Hr. destruct (current_draft s) as [d|] eqn:Hd; [|contradiction].
  destruct (fanout_round_unfold o s s2 Hr) as (uc & ue & us & Hc & He & Hs & ->).
  destruct (clinical_shape o s d uc Hd Hc) as (rc & c & -> & _).
  destruct (empathy_shape o s d ue Hd He) as (re & b & -> & _).
  destruct (safety_shape o s d us Hd Hs) as (rs & a & -> & _).
  unfold apply_updates. simpl. split; [reflexivity|].
  unfold merge_reviews. rewrite !length_app. simpl. lia.
Qed.

Lemma fanout_fields (o : Oracle) (s s2 : FoundryState) :
  fanout_round o s = Some s2 ->
  current_draft s2 = current_draft s /\ iteration s2 = iteration s /\
  max_iterations s2 = max_iterations s /\ status s2 = status s /\
  approve_after_revision s2 = approve_after_revision s.
Proof.
  intros H. pose proof (fanout_keeps_control o s s2 H) as Hc.
  unfold control in Hc. injection Hc. auto.
Qed.

(** The review loop entered at the supervisor after a first round. *)
Lemma first_run_loop (o : Oracle) (fuel : nat) :
  forall s t out, exec o fuel N_supervisor s = (t, out) ->
  status s = REVIEWING -> approve_after_revision s = false ->
  current_draft s <> None -> scores_present s = true ->
  (3 <= List.length (reviews s))%nat -> (1 <= iteration s)%Z ->
  (2 * Z.to_nat (max_iterations s - iteration s) + 1 <= fuel)%nat ->
  (exists s',
     (out = Suspended s' /\ status s' = AWAITING_HUMAN /\
      current_draft s' <> None /\ (3 <= List.length (reviews s'))%nat /\
      scores_present s' = true) \/
     (out = Ended R_FAILED s' /\ status s' = FAILED /\ error s' <> None) \/
     (out = Crashed s' /\ status s' = REVIEWING /\ current_draft s' <> None)) /\
  (count_revisions t <= Z.to_nat (max_iterations s - iteration s))%nat.
Proof.
  induction fuel as [fuel IH] using (well_founded_induction Wf_nat.lt_wf).
  intros s t out Hrun Hst Hf Hc Hsp Hrv Hi Hfuel.
  destruct fuel as [|f]; [lia|].
  cbn [exec run_node] in Hrun.
  destruct (critical_safety s) eqn:Ecrit.
  { assert (Hu : run_supervisor s =
                 mkUpdate None None None None None None None None
                   (Some FAILED) (Some false) (Some ERR_CRITICAL)).
    { unfold run_supervisor. rewrite Ecrit. reflexivity. }
    rewrite Hu in Hrun. inversion Hrun; subst.
    split; [|unfold count_revisions; simpl; lia].
    eexists. right. left. repeat split. discriminate. }
  assert (Hi' : (1 <=? iteration s)%Z = true) by (apply Z.leb_le; exact Hi).
  destruct (scores_passing s) eqn:Ep.
  { assert (Hu : run_supervisor s = empty_update).
    { unfold run_supervisor. rewrite Ecrit, Hf, Ep, Hi'. reflexivity. }
    assert (Hr : route_supervisor s = R_await_human).
    { unfold route_supervisor. rewrite Hst, Hf, Ep, Hi'. reflexivity. }
    rewrite Hu, apply_update_empty, Hr in Hrun. inversion Hrun; subst.
    split; [|unfold count_revisions; simpl; lia].
    eexists. left. repeat split; assumption. }
  destruct (Z.leb_spec (max_iterations s) (iteration s)) as [Hm|Hm].
  { assert (Hu : run_supervisor s =
                 mkUpdate None None None None None None None None
                   (Some FAILED) None (Some ERR_MAX_ITER)).
    { unfold run_supervisor. rewrite Ecrit, Hf, Ep.
      rewrite (proj2 (Z.leb_le _ _) Hm). reflexivity. }
    rewrite Hu in Hrun. inversion Hrun; subst.
    split; [|unfold count_revisions; simpl; lia].
    eexists. right. left. repeat split. discriminate. }
  assert (Hu : run_supervisor s = empty_update).
  { unfold run_supervisor. rewrite Ecrit, Hf, Ep.
    rewrite (proj2 (Z.leb_gt _ _) Hm). reflexivity. }
  assert (Hr : route_supervisor s = R_revision).
  { unfold route_supervisor. rewrite Hst, Hf, Ep.
    rewrite (proj2 (Z.ltb_lt _ _) Hm). reflexivity. }
  rewrite Hu, apply_update_empty, Hr in Hrun.
  destruct f as [|f']; [lia|].
  cbn [exec run_node] in Hrun.
  destruct (current_draft s) as [cur|] eqn:Ecur; [|contradiction].
  set (s1 := apply_update s (run_revision_agent o s)) in Hrun.
  assert (H1 : status s1 = REVIEWING /\ approve_after_revision s1 = false /\
               current_draft s1 <> None /\ reviews s1 = reviews s /\
               iteration s1 = (iteration s + 1)%Z /\
               max_iterations s1 = max_iterations s).
  { subst s1. unfold run_revision_agent. rewrite Ecur. simpl.
    repeat split; try assumption; try discriminate. }
  destruct H1 as (Hs1 & Hf1 & Hc1 & Hr1 & Hi1 & Hm1).
  destruct (fanout_round o s1) as [s2|] eqn:Efan.
  2: { inversion Hrun; subst.
       split; [exists s1; right; right; auto|].
       unfold count_revisions. simpl. lia. }
  destruct (exec o f' N_supervisor s2) as [t1 out1] eqn:E.
  inversion Hrun; subst.
  destruct (fanout_fields o s1 s2 Efan) as (Hc2 & Hi2 & Hm2 & Hs2 & Hf2).
  destruct (fanout_scores o s1 s2 Hc1 Efan) as [Hsp2 Hrv2].
  destruct (IH f' ltac:(lia) _ _ _ E) as [Hout Hcnt].
  - rewrite Hs2. exact Hs1.
  - rewrite Hf2. exact Hf1.
  - rewrite Hc2. exact Hc1.
  - exact Hsp2.
  - rewrite Hrv2, Hr1. lia.
  - rewrite Hi2, Hi1. lia.
  - rewrite Hm2, Hi2, Hm1, Hi1. lia.
  - split; [exact Hout|].
    rewrite Hm2, Hi2, Hm1, Hi1 in Hcnt.
    unfold count_revisions in *. simpl. lia.
Qed.

(** A fresh run with a budget of at least nine node steps (the length of
    the longest path) either stops where [test_graph_basic_flow] expects,
    suspended at [await_human] or ended at the failure terminal, in a state
    satisfying the test's assertions, a failure always carrying an error
    message; or it raises, which only a reviewer does, on a state in review
    with a current draft. In every case at most three revision rounds are
    run. *)
Theorem first_run_outcome (o : Oracle) (fuel : nat)
    (sid intent : string) (ctx : option string) (t : list Node) (out : Outcome)
    (Hfuel : (9 <= fuel)%nat)
    (Hrun : start o fuel (new_session_state sid intent ctx) = (t, out)) :
  ((exists s, (out = Suspended s \/ out = Ended R_FAILED s) /\
              basic_flow_assertions s = true /\
              (status s = FAILED -> error s <> None)) \/
   (exists s, out = Crashed s /\ status s = REVIEWING /\ current_draft s <> None)) /\
  (count_revisions t <= 3)%nat.
Proof.
  destruct fuel as [|[|f]]; [lia|lia|].
  unfold start in Hrun. cbn [exec next_node run_node] in Hrun.
  set (s0 := new_session_state sid intent ctx) in Hrun.
  set (s1 := apply_update s0 (run_intent_interpreter o s0)) in Hrun.
  set (s2 := apply_update s1 (run_drafting_agent o s1)) in Hrun.
  assert (H2 : status s2 = REVIEWING /\ approve_after_revision s2 = false /\
               current_draft s2 <> None /\ reviews s2 = [] /\
               iteration s2 = 1%Z /\ max_iterations s2 = 4%Z).
  { repeat split; discriminate. }
  destruct H2 as (Hs2 & Hf2 & Hc2 & Hr2 & Hi2 & Hm2).
  destruct (fanout_round o s2) as [s3|] eqn:Efan.
  2: { inversion Hrun; subst.
       split; [right; exists s2; auto|].
       unfold count_revisions. simpl. lia. }
  destruct (exec o f N_supervisor s3) as [t1 out1] eqn:E.
  inversion Hrun; subst.
  destruct (fanout_fields o s2 s3 Efan) as (Hc3 & Hi3 & Hm3 & Hs3 & Hf3).
  destruct (fanout_scores o s2 s3 Hc2 Efan) as [Hsp3 Hrv3].
  destruct (first_run_loop o f _ _ _ E) as [Hout Hcnt].
  - rewrite Hs3. exact Hs2.
  - rewrite Hf3. exact Hf2.
  - rewrite Hc3. exact Hc2.
  - exact Hsp3.
  - rewrite Hrv3, Hr2. simpl. lia.
  - rewrite Hi3, Hi2. lia.
  - rewrite Hm3, Hi3, Hm2, Hi2. simpl. lia.
  - rewrite Hm3, Hi3, Hm2, Hi2 in Hcnt. simpl in Hcnt.
    split; [|unfold count_revisions in *; simpl; exact Hcnt].
    destruct Hout as (s' & [(-> & Hs & Hc & Hrv & Hsp) | [(-> & Hs & He) | (-> & Hs & Hc)]]).
    + left. exists s'. split; [left; reflexivity|]. split; [|rewrite Hs; discriminate].
      unfold basic_flow_assertions.
      rewrite Hs, Hsp, (proj2 (Nat.leb_le _ _) Hrv).
      destruct (current_draft s'); [reflexivity|contradiction].
    + left. exists s'. split; [right; reflexivity|].
      split; [|intros _; exact He].
      unfold basic_flow_assertions. rewrite Hs. reflexivity.
    + right. exists s'. auto.
Qed.

Lemma first_run_outcome_witness :
  let o := demo_oracle (Some (5 # 10)) None None in
  (count_revisions (fst (start o 9 demo_session)) <= 3)%nat.
Proof.
  intros o.
  destruct (start o 9 demo_session) as [t out] eqn:E. simpl.
  exact (proj2 (first_run_outcome o 9 _ _ _ t out ltac:(lia) E)).
Defined.

(** ** Fence stripping in [generate_json] *)

Lemma starts_with_app (p l : list N) : starts_with p (p ++ l) = true.
Proof.
  induction p as [|x p IH]; [reflexivity|].
  simpl. rewrite N.eqb_refl. exact IH.
Qed.

Lemma firstn_length_app {A} (p l : list A) : firstn (List.length p) (p ++ l) = p.
Proof. induction p as [|x p IH]; simpl; [reflexivity | rewrite IH; reflexivity]. Qed.

Lemma py_lstrip_spaces (ws l : list N) :
  forallb is_py_space ws = true -> py_lstrip (ws ++ l) = py_lstrip l.
Proof.
  induction ws as [|c ws IH]; intros H; [reflexivity|].
  simpl in H. apply andb_true_iff in H as [H1 H2].
  simpl. rewrite H1. exact (IH H2).
Qed.

Lemma py_lstrip_backtick (l : list N) : py_lstrip (BACKTICK :: l) = BACKTICK :: l.
Proof. reflexivity. Qed.

Lemma forallb_rev_spaces (l : list N) :
  forallb is_py_space l = true -> forallb is_py_space (rev l) = true.
Proof.
  intros H. apply forallb_forall. intros x Hx.
  apply (proj1 (forallb_forall _ _) H). apply in_rev. exact Hx.
Qed.

Lemma rev_backticked (m : list N) :
  rev (BACKTICK :: m ++ [BACKTICK]) = BACKTICK :: rev m ++ [BACKTICK].
Proof. simpl. rewrite rev_app_distr. reflexivity. Qed.

(** White space around a text that starts and ends with a backtick is
    what [str.strip()] removes. *)
Lemma py_strip_around (ws1 m ws2 : list N)
    (H1 : forallb is_py_space ws1 = true) (H2 : forallb is_py_space ws2 = true) :
  py_strip (ws1 ++ (BACKTICK :: m ++ [BACKTICK]) ++ ws2) = BACKTICK :: m ++ [BACKTICK].
Proof.
  unfold py_strip.
  rewrite (py_lstrip_spaces ws1 _ H1).
  change ((BACKTICK :: m ++ [BACKTICK]) ++ ws2)
    with (BACKTICK :: (m ++ [BACKTICK]) ++ ws2).
  rewrite py_lstrip_backtick.
  change (BACKTICK :: (m ++ [BACKTICK]) ++ ws2)
    with ((BACKTICK :: m ++ [BACKTICK]) ++ ws2).
  rewrite rev_app_distr, (py_lstrip_spaces (rev ws2) _ (forallb_rev_spaces ws2 H2)).
  rewrite rev_backticked, py_lstrip_backtick, <- rev_backticked, rev_involutive.
  reflexivity.
Qed.

(** In [generate_json]'s fallback, a reply of the form
    [<ws> ```json <body> ``` <ws>], with any Python white space around the
    fences, is reduced to its stripped body, provided the body does not
    itself start with a backtick. *)
Theorem extract_json_fenced (ws1 p ws2 : list N)
    (H1 : forallb is_py_space ws1 = true) (H2 : forallb is_py_space ws2 = true)
    (Hp : hd_error p <> Some BACKTICK) :
  extract_json_text (ws1 ++ FENCE_JSON ++ p ++ FENCE ++ ws2) = py_strip p.
Proof.
  unfold extract_json_text.
  assert (Hs0 : py_strip (ws1 ++ FENCE_JSON ++ p ++ FENCE ++ ws2)
                = FENCE_JSON ++ p ++ FENCE).
  { pose proof (py_strip_around ws1 ([96; 96; 106; 115; 111; 110]%N ++ p ++ [96; 96]%N)
                  ws2 H1 H2) as H.
    simpl in H. rewrite <- !app_assoc in H. simpl in H. exact H. }
  rewrite Hs0, starts_with_app.
  change (skipn 7 (FENCE_JSON ++ p ++ FENCE)) with (p ++ FENCE).
  assert (Hs : starts_with FENCE (p ++ FENCE) = false \/ p = []).
  { destruct p as [|a p]; [right; reflexivity|left].
    change (starts_with FENCE ((a :: p) ++ FENCE)) with
      (N.eqb 96 a && starts_with [96; 96]%N (p ++ FENCE)).
    destruct (N.eqb 96 a) eqn:E; [|reflexivity].
    apply N.eqb_eq in E. subst a. exfalso. exact (Hp eq_refl). }
  destruct Hs as [Hs| ->]; [|reflexivity].
  rewrite Hs.
  assert (He : ends_with FENCE (p ++ FENCE) = true).
  { unfold ends_with. rewrite rev_app_distr. apply starts_with_app. }
  rewrite He, length_app.
  change (List.length FENCE) with 3%nat. rewrite Nat.add_sub.
  rewrite firstn_length_app. reflexivity.
Qed.

Lemma extract_json_fenced_witness :
  extract_json_text ([10; 160]%N ++ FENCE_JSON ++ [32; 123; 125; 12288]%N ++
                     FENCE ++ [8232]%N) = [123; 125]%N.
Proof.
  rewrite extract_json_fenced; [reflexivity | reflexivity | reflexivity | discriminate].
Defined.
